(** * Role-based access control across the auth server and the resource server

    A shallow embedding of [auth_server.py] and [resource_server.py]:
    the role and access-level tables, the decision function [can_access],
    the register / login routes over the users table, token issuance and
    validation, and the list / create / profile routes over the items
    table.

    Conventions.
    - Python [str] is [string], read as ASCII text; Python [int] is [Z];
      a Python [float] is its IEEE decomposition [spec_float].
    - A Python [dict] is a [gmap] with string keys; [d.get(k, v)] is
      [default v (d !! k)] and [k in d] is [is_Some (d !! k)].
    - A computation returns [Ok v], raises an [HTTPException] ([Raise e])
      or raises another Python exception ([Except x]); an exception that
      reaches the server uncaught is answered with status 500.  A route
      that writes to a table returns the new table next to its result.
    - The clock ([time.time()], [CURRENT_TIMESTAMP], the clock read inside
      [jwt.decode]) and the salt drawn by [bcrypt.gensalt()] are explicit
      arguments. *)

From Stdlib Require Import ZArith Ascii String List Sorting.Sorted.
From Stdlib Require Import Floats.SpecFloat.
From stdpp Require Import base option gmap strings list sorting pretty.

Local Open Scope string_scope.
Local Open Scope list_scope.
Local Open Scope Z_scope.

(** ** Values and results *)

#[global] Instance spec_float_eq_dec : EqDecision spec_float.
Proof. solve_decision. Defined.

(** The values a decoded claim set holds: what [json.loads] returns. *)
#[local] Set Warnings "-register-all".
Inductive jval : Type :=
  | JNull
  | JBool (b : bool)
  | JInt (z : Z)
  | JFloat (x : spec_float)
  | JStr (s : string)
  | JList (items : list jval)
  | JObj (fields : list (string * jval)).

#[global] Instance jval_eq_dec : EqDecision jval.
Proof.
  unfold EqDecision, Decision. fix IH 1. intros v w. destruct v, w; try (right; discriminate).
  - by left.
  - destruct (decide (b = b0)); [left; congruence | right; congruence].
  - destruct (decide (z = z0)); [left; congruence | right; congruence].
  - destruct (decide (x = x0)); [left; congruence | right; congruence].
  - destruct (decide (s = s0)); [left; congruence | right; congruence].
  - destruct (List.list_eq_dec IH items items0);
      [left; congruence | right; congruence].
  - assert (Hp : ∀ p q : string * jval, {p = q} + {p ≠ q}).
    { intros [k x] [l y]. destruct (decide (k = l)); [|right; congruence].
      destruct (IH x y); [left; congruence | right; congruence]. }
    destruct (List.list_eq_dec Hp fields fields0);
      [left; congruence | right; congruence].
Defined.


(** [fastapi.HTTPException(status_code=..., detail=...)]. *)
Record http_exception : Type := HTTPException {
  status_code : Z;
  detail : string
}.

#[global] Instance http_exception_eq_dec : EqDecision http_exception.
Proof. solve_decision. Defined.

(** The exceptions of the token library, all of them [JWTError]s. *)
Inductive jwt_error : Type :=
  | JWSError
  | JWTClaimsError
  | ExpiredSignatureError.

(** The other Python exceptions the two servers can meet: the built-in
    ones, an error of the [sqlite3] module, and the token library's. *)
Inductive py_exception : Type :=
  | TypeError
  | ValueError
  | OverflowError
  | SqliteError
  | JWTError (e : jwt_error).

(** Outcome of a computation: the returned value, a raised
    [HTTPException], or another raised exception. *)
Inductive result (A : Type) : Type :=
  | Ok (a : A)
  | Raise (e : http_exception)
  | Except (x : py_exception).
Arguments Ok {A} a.
Arguments Raise {A} e.
Arguments Except {A} x.

#[global] Instance jwt_error_eq_dec : EqDecision jwt_error.
Proof. solve_decision. Defined.

#[global] Instance py_exception_eq_dec : EqDecision py_exception.
Proof. solve_decision. Defined.

#[global] Instance result_eq_dec {A : Type} `{!EqDecision A} : EqDecision (result A).
Proof. solve_decision. Defined.

#[global] Instance result_ret : MRet result := λ A a, Ok a.

#[global] Instance result_bind : MBind result := λ A B k r,
  match r with
  | Ok a => k a
  | Raise e => Raise e
  | Except x => Except x
  end.

(** One step of a handler that works on a table: when the step fails the
    failure is the outcome and the table stays as it is. *)
Definition step {A B S : Type} (r : result A) (s : S) (k : A → result B * S)
    : result B * S :=
  match r with
  | Ok a => k a
  | Raise e => (Raise e, s)
  | Except x => (Except x, s)
  end.

(** ** RBAC configuration (resource_server.py) *)

Definition ROLE_HIERARCHY : gmap string Z :=
  <["guest" := 0]> (<["user" := 1]> (<["admin" := 2]> (<["super_admin" := 3]> ∅))).

Definition ACCESS_LEVELS : gmap string Z :=
  <["public" := 0]> (<["user" := 1]> (<["admin" := 2]> (<["super_admin" := 3]> ∅))).

(** The values [json.dumps(..., allow_nan=False)] writes, as the server
    does with a returned body: anything but a NaN or an infinity, at any
    depth. *)
Fixpoint renderable (v : jval) : bool :=
  match v with
  | JFloat S754_nan | JFloat (S754_infinity _) => false
  | JList items => forallb renderable items
  | JObj fields => forallb (λ '(_, x), renderable x) fields
  | _ => true
  end.

(** The body of a response: returned when it can be written, else the
    [ValueError] of [json.dumps]. *)
Definition render {A : Type} (writable : bool) (body : A) : result A :=
  if writable then Ok body else Except ValueError.

(** The values Python cannot hash: lists and dicts. *)
Definition unhashable (v : jval) : bool :=
  match v with
  | JList _ | JObj _ => true
  | _ => false
  end.

(** [table.get(key, dflt)] on a table with string keys.  The key comes
    straight out of a claim set: a string is looked up, any other hashable
    value is never a key of the table, and a list or dict raises
    [TypeError]. *)
Definition dict_get (table : gmap string Z) (key : jval) (dflt : Z) : result Z :=
  match key with
  | JStr s => Ok (default dflt (table !! s))
  | JList _ | JObj _ => Except TypeError
  | JNull | JBool _ | JInt _ | JFloat _ => Ok dflt
  end.

(** [payload.get("role", "guest")]. *)
Definition get_user_role (payload : gmap string jval) : jval :=
  default (JStr "guest") (payload !! "role").

(** [can_access(user_role, required_level)]. *)
Definition can_access (user_role : jval) (required_level : string) : result bool :=
  user_level ← dict_get ROLE_HIERARCHY user_role 0;
  required_level_num ← dict_get ACCESS_LEVELS (JStr required_level) 0;
  mret (user_level >=? required_level_num).

(** The two rank functions in the words of the specification: a table
    lookup where an unknown name has rank 0. *)
Definition rank_of_role (role : string) : Z :=
  match ROLE_HIERARCHY !! role with Some n => n | None => 0 end.

Definition rank_of_level (level : string) : Z :=
  match ACCESS_LEVELS !! level with Some n => n | None => 0 end.

(** ** Python string helpers used by the auth server *)

(** [not s] for a string: true exactly on the empty string. *)
Definition py_not (s : string) : bool :=
  match s with
  | EmptyString => true
  | String _ _ => false
  end.

(** The ASCII characters [str.strip()] removes: tab, line feed, vertical
    tab, form feed, carriage return, the four separators 28-31, space. *)
Definition py_isspace (c : ascii) : bool :=
  let n := nat_of_ascii c in
  ((9 <=? n)%nat && (n <=? 13)%nat) || ((28 <=? n)%nat && (n <=? 32)%nat).

Fixpoint lstrip (s : string) : string :=
  match s with
  | EmptyString => EmptyString
  | String c s' => if py_isspace c then lstrip s' else s
  end.

Fixpoint rstrip (s : string) : string :=
  match s with
  | EmptyString => EmptyString
  | String c s' =>
      let r := rstrip s' in
      if py_not r && py_isspace c then EmptyString else String c r
  end.

(** [s.strip()]. *)
Definition strip (s : string) : string := rstrip (lstrip s).

Definition lower_char (c : ascii) : ascii :=
  let n := nat_of_ascii c in
  if (65 <=? n)%nat && (n <=? 90)%nat then ascii_of_nat (n + 32) else c.

(** [s.lower()]. *)
Fixpoint lower (s : string) : string :=
  match s with
  | EmptyString => EmptyString
  | String c s' => String (lower_char c) (lower s')
  end.

(** [sep.join(parts)]. *)
Fixpoint join (sep : string) (parts : list string) : string :=
  match parts with
  | [] => ""
  | [p] => p
  | p :: rest => p +:+ sep +:+ join sep rest
  end.

(** ** Request and response bodies *)

Module UserRegister.
Record t : Type := Build {
  username : string;
  password : string;
  role : string
}.
End UserRegister.

Module UserLogin.
Record t : Type := Build {
  username : string;
  password : string
}.
End UserLogin.

Module CreateItem.
Record t : Type := Build {
  title : string;
  description : string;
  access_level : string
}.
End CreateItem.

(** Body returned by [register_user]. *)
Module Registered.
Record t : Type := Build { message : string }.
End Registered.

(** One row of the [items] table. *)
Record item_row : Type := ItemRow {
  row_id : Z;
  row_title : string;
  row_description : string;
  row_owner : jval;
  row_access_level : string;
  row_created_at : Z
}.

#[global] Instance item_row_eq_dec : EqDecision item_row.
Proof. solve_decision. Defined.

(** Body returned by [get_items]. *)
Module ItemsResponse.
Record t : Type := Build {
  user : jval;
  role : jval;
  items : list item_row;
  total_accessible : Z;
  total_items : Z
}.
End ItemsResponse.

(** Body returned by [create_item]. *)
Module ItemCreated.
Record t : Type := Build {
  message : string;
  id : Z;
  owner : jval;
  access_level : string
}.
End ItemCreated.

(** Body returned by [get_profile]; [payload.get("sub")] is [None] when the
    claim is absent. *)
Module Profile.
Record t : Type := Build {
  username : option jval;
  message : string
}.
End Profile.

(** ** The items table (resource_server.py, DATABASE SETUP) *)

(** Largest id in the table; ids are assigned by AUTOINCREMENT and rows are
    never deleted. *)
Definition max_rowid (table : list item_row) : Z :=
  foldr (λ r m, Z.max (row_id r) m) 0 table.

(** [INSERT INTO items (title, description, owner, access_level) VALUES
    (?, ?, ?, ?)] followed by [cur.lastrowid]: the row gets the next id and
    the current timestamp. *)
Definition insert_item (now : Z) (title description : string) (owner : jval)
    (access_level : string) (table : list item_row) : list item_row * Z :=
  let item_id := max_rowid table + 1 in
  (table ++ [ItemRow item_id title description owner access_level now], item_id).

(** [SELECT * FROM items ORDER BY created_at DESC]. *)
Definition newer_or_equal (a b : item_row) : Prop :=
  row_created_at b ≤ row_created_at a.

#[global] Instance newer_or_equal_dec : RelDecision newer_or_equal.
Proof. intros a b. unfold newer_or_equal. apply _. Defined.

Definition select_items (table : list item_row) : list item_row :=
  merge_sort newer_or_equal table.

Definition sample_data : list (string * string * string * string) :=
  [ ("Welcome Message", "Welcome to our platform! This is visible to everyone.", "system", "public");
    ("Company News", "Latest company updates and announcements", "system", "public");
    ("Public Events", "Upcoming public events and webinars", "system", "public");
    ("Contact Info", "Public contact information and office hours", "system", "public");
    ("Team Calendar", "Internal team calendar and schedules", "system", "user");
    ("Project Updates", "Current project status and milestones", "system", "user");
    ("Employee Resources", "HR resources and employee handbook", "system", "user");
    ("Internal Tools", "Links to internal development tools", "system", "user");
    ("Training Materials", "Employee training and onboarding docs", "system", "user");
    ("Team Chat Logs", "Important discussions and meeting notes", "system", "user");
    ("Server Configs", "Production server configuration details", "system", "admin");
    ("User Management", "User account management and permissions", "system", "admin");
    ("Database Backups", "Database backup schedules and procedures", "system", "admin");
    ("API Keys", "Third-party API keys and integration details", "system", "admin");
    ("System Monitoring", "Server monitoring and alert configurations", "system", "admin");
    ("Security Audit", "Confidential security audit results", "system", "super_admin");
    ("Financial Reports", "Sensitive financial data and reports", "system", "super_admin");
    ("Executive Decisions", "Board meeting minutes and strategic plans", "system", "super_admin") ].

(** [init_db()]: seed the table when it is empty. *)
Definition init_db (now : Z) (table : list item_row) : list item_row :=
  if decide (length table = 0%nat) then
    fold_left
      (λ tbl '(title, description, owner, access_level),
         fst (insert_item now title description (JStr owner) access_level tbl))
      sample_data table
  else table.

(** ** Tokens and the users table *)

(** A token: the algorithm named in its header, its claim set and its
    signature segment. *)
Record jwt (Sig : Type) : Type := JWT {
  jwt_alg : string;
  jwt_claims : gmap string jval;
  jwt_signature : Sig
}.
Arguments JWT {Sig} _ _ _.
Arguments jwt_alg {Sig} _.
Arguments jwt_claims {Sig} _.
Arguments jwt_signature {Sig} _.

(** One row of the [users] table, keyed by its UNIQUE username. *)
Record user_row (Hash : Type) : Type := UserRow {
  password_hash : Hash;
  user_role : string
}.
Arguments UserRow {Hash} _ _.
Arguments password_hash {Hash} _.
Arguments user_role {Hash} _.

(** Body returned by [login]. *)
Module TokenResponse.
Record t (Sig : Type) : Type := Build {
  access_token : jwt Sig;
  token_type : string;
  expires_in : Z
}.
Arguments Build {Sig} _ _ _.
Arguments access_token {Sig} _.
Arguments token_type {Sig} _.
Arguments expires_in {Sig} _.
End TokenResponse.

(** Body returned by [root]. *)
Module Root.
Record t : Type := Build {
  message : string;
  available_roles : list string
}.
End Root.

(** Body returned by [get_available_roles]. *)
Module Roles.
Record t : Type := Build {
  available_roles : list string;
  role_descriptions : gmap string string
}.
End Roles.

(** An idealised keyed signature, used to run the services on concrete
    requests: the tag records the key and the signed segments. *)
Definition ideal_sign (alg key : string) (segments : string * gmap string jval)
  : string * string * (string * gmap string jval) := (alg, key, segments).

(** A stand-in for bcrypt on concrete requests: the hash records salt and
    password, and checking compares the passwords. *)
Definition plain_hashpw (password : string) (salt : nat) : nat * string :=
  (salt, password).

Definition plain_checkpw (password : string) (hashed : nat * string) : bool :=
  bool_decide (password = snd hashed).

(** On the requests below no claim value is a numeral in a string, so
    [int()] has nothing to parse. *)
Definition no_numeral (s : string) : option Z := None.

(** The claims of a token issued to bob, a user, at second 1000, and the
    token signed with the key "k". *)
Definition bob_claims : gmap string jval :=
  list_to_map [("sub", JStr "bob"); ("role", JStr "user"); ("iat", JInt 1000);
               ("exp", JInt 4600); ("scope", JStr "read write")].

Definition bob_token : jwt (string * string * (string * gmap string jval)) :=
  JWT "HS256" bob_claims (ideal_sign "HS256" "k" ("HS256", bob_claims)).

(** A token signed with the same key that names an admin but no subject. *)
Definition nameless_claims : gmap string jval :=
  list_to_map [("role", JStr "admin"); ("exp", JInt 4600)].

Definition nameless_token : jwt (string * string * (string * gmap string jval)) :=
  JWT "HS256" nameless_claims (ideal_sign "HS256" "k" ("HS256", nameless_claims)).

(** A users table holding alice, a user, with password "pw". *)
Definition alice_users : gmap string (user_row (nat * string)) :=
  {[ "alice" := UserRow (plain_hashpw "pw" 7%nat) "user" ]}.

(** On the requests below no owner is a float, so its text form is never
    asked for. *)
Definition no_real_text (x : spec_float) : string := "".

(** A password of 73 characters, one more than bcrypt takes. *)
Definition long_password : string :=
  "aaaaaaaaaaaaaaaaaaaaaaaaaaaaaaaaaaaaaaaaaaaaaaaaaaaaaaaaaaaaaaaaaaaaaaaaa".

Section Services.

Set Default Proof Using "Type".

(** The external primitives: the keyed signature behind
    [jwt.encode]/[jwt.decode], Python's [int()] on a string ([None] when it
    raises [ValueError]), bcrypt on the passwords it takes, and the text
    form sqlite gives a float stored in a TEXT column. *)
Context {Sig : Type} `{!EqDecision Sig}.
Variable sign : string → string → string * gmap string jval → Sig.
Variable py_int : string → option Z.
Context {Salt Hash : Type}.
Variable hashpw : string → Salt → Hash.
Variable checkpw : string → Hash → bool.
Variable real_text : spec_float → string.

(** Whether the library still accepts a token at the very second
    [now = exp]; the services do not fix it. *)
Variable valid_at_exp : bool.

(** [JWT_SECRET = os.getenv("JWT_SECRET", "super-secret-key")], the same
    value in both servers. *)
Variable JWT_SECRET : string.

Definition JWT_ALGORITHM : string := "HS256".
Definition JWT_EXPIRE_SECONDS : Z := 3600.
Definition VALID_ROLES : list string := ["user"; "admin"; "super_admin"].

(** *** bcrypt *)

(** [bcrypt.hashpw(password, salt)] and [bcrypt.checkpw(password, hashed)]:
    a password longer than 72 bytes raises [ValueError]. *)
Definition bcrypt_hashpw (password : string) (salt : Salt) : result Hash :=
  if (72 <? String.length password)%nat then Except ValueError
  else Ok (hashpw password salt).

Definition bcrypt_checkpw (password : string) (hashed : Hash) : result bool :=
  if (72 <? String.length password)%nat then Except ValueError
  else Ok (checkpw password hashed).

(** *** The token library *)

(** [jwt.encode(payload, key, algorithm=alg)]. *)
Definition jwt_encode (payload : gmap string jval) (key alg : string) : jwt Sig :=
  JWT alg payload (sign alg key (alg, payload)).

(** [int(x)] on a float: truncation towards zero, [ValueError] on a NaN
    and [OverflowError] on an infinity. *)
Definition int_of_float (x : spec_float) : result Z :=
  match x with
  | S754_zero _ => Ok 0
  | S754_infinity _ => Except OverflowError
  | S754_nan => Except ValueError
  | S754_finite negative m e =>
      let magnitude :=
        if 0 <=? e then Z.pos m * 2 ^ e else Z.pos m / 2 ^ (- e) in
      Ok (if negative then - magnitude else magnitude)
  end.

(** [int(v)] on a claim value. *)
Definition int_claim (v : jval) : result Z :=
  match v with
  | JInt z => Ok z
  | JBool b => Ok (if b then 1 else 0)
  | JFloat x => int_of_float x
  | JStr s => if py_int s is Some z then Ok z else Except ValueError
  | JNull | JList _ | JObj _ => Except TypeError
  end.

(** [try: int(v) except ValueError: raise JWTClaimsError]: any other
    exception of [int] passes through. *)
Definition int_or_claims_error (v : jval) : result Z :=
  match int_claim v with
  | Except ValueError => Except (JWTError JWTClaimsError)
  | r => r
  end.

Definition expired (exp now : Z) : bool :=
  if valid_at_exp then exp <? now else exp <=? now.

(** The checks [jwt.decode] makes on the registered claims when only
    [verify_aud] is switched off and no issuer, subject or access token is
    passed: [iat], [nbf] and [exp] must be integers, [nbf] must not lie
    ahead, [exp] must not have passed, [sub] and [jti] must be strings,
    and an [at_hash] cannot be checked.  Each is skipped when its claim is
    absent. *)
Definition validate_iat (claims : gmap string jval) : result () :=
  match claims !! "iat" with
  | Some v => _ ← int_or_claims_error v; mret ()
  | None => mret ()
  end.

Definition validate_nbf (claims : gmap string jval) (now : Z) : result () :=
  match claims !! "nbf" with
  | Some v =>
      nbf ← int_or_claims_error v;
      if now <? nbf then Except (JWTError JWTClaimsError) else mret ()
  | None => mret ()
  end.

Definition validate_exp (claims : gmap string jval) (now : Z) : result () :=
  match claims !! "exp" with
  | Some v =>
      exp ← int_or_claims_error v;
      if expired exp now then Except (JWTError ExpiredSignatureError) else mret ()
  | None => mret ()
  end.

Definition validate_str (claims : gmap string jval) (name : string) : result () :=
  match claims !! name with
  | Some (JStr _) | None => mret ()
  | Some _ => Except (JWTError JWTClaimsError)
  end.

Definition validate_at_hash (claims : gmap string jval) : result () :=
  match claims !! "at_hash" with
  | Some _ => Except (JWTError JWTClaimsError)
  | None => mret ()
  end.

Definition validate_claims (claims : gmap string jval) (now : Z) : result () :=
  _ ← validate_iat claims;
  _ ← validate_nbf claims now;
  _ ← validate_exp claims now;
  _ ← validate_str claims "sub";
  _ ← validate_str claims "jti";
  validate_at_hash claims.

(** [jwt.decode(token, key, algorithms=algs, options={"verify_aud": False})]
    at clock reading [now]. *)
Definition jwt_decode (token : jwt Sig) (key : string) (algs : list string)
    (now : Z) : result (gmap string jval) :=
  if negb (bool_decide (jwt_alg token ∈ algs)) then Except (JWTError JWSError)
  else if negb (bool_decide
                  (jwt_signature token
                   = sign (jwt_alg token) key (jwt_alg token, jwt_claims token)))
  then Except (JWTError JWSError)
  else _ ← validate_claims (jwt_claims token) now; mret (jwt_claims token).

(** *** resource_server.py *)

(** [verify_token(creds)]: a [JWTError] becomes a 401, any other exception
    passes through. *)
Definition verify_token (token : jwt Sig) (now : Z) : result (gmap string jval) :=
  match jwt_decode token JWT_SECRET [JWT_ALGORITHM] now with
  | Except (JWTError _) => Raise (HTTPException 401 "Invalid token")
  | r => r
  end.

(** The loop of [get_items] that collects the accessible items. *)
Fixpoint collect_accessible (user_role : jval) (all_items : list item_row)
    (accessible_items : list item_row) : result (list item_row) :=
  match all_items with
  | [] => mret accessible_items
  | item :: rest =>
      allowed ← can_access user_role (row_access_level item);
      collect_accessible user_role rest
        (if (allowed : bool) then accessible_items ++ [item] else accessible_items)
  end.

(** [get_items(payload)], GET /items. *)
Definition get_items (payload : gmap string jval) (table : list item_row)
    : result ItemsResponse.t :=
  let username := default (JStr "anonymous") (payload !! "sub") in
  let user_role := get_user_role payload in
  let all_items := select_items table in
  accessible_items ← collect_accessible user_role all_items [];
  mret (ItemsResponse.Build username user_role accessible_items
          (Z.of_nat (length accessible_items)) (Z.of_nat (length all_items))).

(** What the [owner] column, TEXT NOT NULL, holds after a value is bound
    to it: a string as it is, a number in text form.  An integer outside
    64 bits raises [OverflowError]; [None] and a NaN are bound as NULL,
    which the column refuses, and a list or dict cannot be bound. *)
Definition stored_owner (v : jval) : result jval :=
  match v with
  | JStr s => Ok (JStr s)
  | JInt z =>
      if (- 2 ^ 63 <=? z) && (z <? 2 ^ 63) then Ok (JStr (pretty z))
      else Except OverflowError
  | JBool b => Ok (JStr (if b then "1" else "0"))
  | JFloat S754_nan => Except SqliteError
  | JFloat x => Ok (JStr (real_text x))
  | JNull | JList _ | JObj _ => Except SqliteError
  end.

(** [create_item(item, payload)], POST /items, at clock reading [now];
    returns the outcome and the table afterwards. *)
Definition create_item (item : CreateItem.t) (payload : gmap string jval)
    (now : Z) (table : list item_row) : result ItemCreated.t * list item_row :=
  let username := default (JStr "anonymous") (payload !! "sub") in
  let user_role := get_user_role payload in
  if negb (bool_decide (is_Some (ACCESS_LEVELS !! CreateItem.access_level item))) then
    (Raise (HTTPException 400 "Invalid access level"), table)
  else
    step (can_access user_role (CreateItem.access_level item)) table (λ allowed,
      if negb allowed then
        (Raise (HTTPException 403
                  ("Insufficient permissions to create "
                   +:+ CreateItem.access_level item +:+ " items")), table)
      else
        step (stored_owner username) table (λ owner,
          let '(table', item_id) :=
            insert_item now (CreateItem.title item) (CreateItem.description item)
              owner (CreateItem.access_level item) table in
          (Ok (ItemCreated.Build "Item created" item_id username
                 (CreateItem.access_level item)), table'))).

(** [get_profile(payload)], GET /profile. *)
Definition get_profile (payload : gmap string jval) : Profile.t :=
  Profile.Build (payload !! "sub") "This is your profile".

(** The three routes: [Depends(verify_token)] is resolved first, then the
    handler runs, then the server writes the returned body as JSON; the
    rows of the table hold text and integers, so only the claim values a
    body repeats can fail to be written. *)
Definition route_get_items (token : jwt Sig) (now : Z) (table : list item_row)
    : result ItemsResponse.t :=
  payload ← verify_token token now;
  body ← get_items payload table;
  render (renderable (ItemsResponse.user body)
          && renderable (ItemsResponse.role body)) body.

Definition route_create_item (token : jwt Sig) (item : CreateItem.t) (now : Z)
    (table : list item_row) : result ItemCreated.t * list item_row :=
  step (verify_token token now) table (λ payload,
    let '(outcome, table') := create_item item payload now table in
    (body ← outcome; render (renderable (ItemCreated.owner body)) body, table')).

Definition route_get_profile (token : jwt Sig) (now : Z) : result Profile.t :=
  payload ← verify_token token now;
  let body := get_profile payload in
  render (if Profile.username body is Some v then renderable v else true) body.

(** *** auth_server.py *)

(** [register_user(user_data)], POST /register, with the salt drawn by
    [bcrypt.gensalt()]; returns the outcome and the users table
    afterwards. *)
Definition register_user (salt : Salt) (user_data : UserRegister.t)
    (users : gmap string (user_row Hash))
    : result Registered.t * gmap string (user_row Hash) :=
  if py_not (UserRegister.username user_data)
     || py_not (UserRegister.password user_data) then
    (Raise (HTTPException 400 "Username and password required"), users)
  else
    let username := lower (strip (UserRegister.username user_data)) in
    step (bcrypt_hashpw (UserRegister.password user_data) salt) users
      (λ password_hash,
        if negb (bool_decide (UserRegister.role user_data ∈ VALID_ROLES)) then
          (Raise (HTTPException 400
                    ("Invalid role. Available roles: " +:+ join ", " VALID_ROLES)),
           users)
        else
          match users !! username with
          | Some _ => (Raise (HTTPException 400 "Username already exists"), users)
          | None =>
              (Ok (Registered.Build
                     ("User '" +:+ username +:+ "' registered successfully")),
               <[username := UserRow password_hash (UserRegister.role user_data)]>
                 users)
          end).

(** The claim set built by [login]. *)
Definition login_payload (username user_role : string) (now : Z) : gmap string jval :=
  <["sub" := JStr username]>
    (<["role" := JStr user_role]>
       (<["iat" := JInt now]>
          (<["exp" := JInt (now + JWT_EXPIRE_SECONDS)]>
             (<["scope" := JStr "read write"]> ∅)))).

(** [login(user_data)], POST /login, at clock reading [now]. *)
Definition login (now : Z) (user_data : UserLogin.t)
    (users : gmap string (user_row Hash)) : result (TokenResponse.t Sig) :=
  let username := lower (strip (UserLogin.username user_data)) in
  let password := UserLogin.password user_data in
  match users !! username with
  | None => Raise (HTTPException 401 "Invalid username or password")
  | Some row =>
      matches ← bcrypt_checkpw password (password_hash row);
      if negb matches then
        Raise (HTTPException 401 "Invalid username or password")
      else
        let payload := login_payload username (user_role row) now in
        let token := jwt_encode payload JWT_SECRET JWT_ALGORITHM in
        mret (TokenResponse.Build token "Bearer" JWT_EXPIRE_SECONDS)
  end.

(** [root()], GET /. *)
Definition root : Root.t := Root.Build "Auth Server" VALID_ROLES.

(** [get_available_roles()], GET /roles. *)
Definition get_available_roles : Roles.t :=
  Roles.Build VALID_ROLES
    (<["user" := "Basic user access - can see public and user-level items"]>
       (<["admin" := "Admin access - can see public, user, and admin-level items"]>
          (<["super_admin" := "Full access - can see all items including super admin level"]>
             ∅))).

(** Decide a statement about table membership once every key test has been
    split: a stored rank is [Some _], a missing one is [None]. *)
Ltac table_cases :=
  repeat case_decide; subst;
  split; intros;
  repeat match goal with
    | H : _ ∧ _ |- _ => destruct H
    | H : is_Some None |- _ => by apply is_Some_None in H
    | H : _ ∨ _ |- _ => destruct H
    | H : False |- _ => destruct H
    | |- _ ∧ _ => split
    | |- is_Some (Some _) => by eexists
    end;
  try congruence;
  repeat first [ left; congruence | right ].

(** ** The two tables, entry by entry *)

Lemma ROLE_HIERARCHY_lookup (name : string) :
  ROLE_HIERARCHY !! name =
    if decide (name = "guest") then Some 0
    else if decide (name = "user") then Some 1
    else if decide (name = "admin") then Some 2
    else if decide (name = "super_admin") then Some 3
    else None.
Proof.
  unfold ROLE_HIERARCHY. rewrite !lookup_insert, lookup_empty.
  repeat case_decide; congruence.
Qed.

Lemma ACCESS_LEVELS_lookup (name : string) :
  ACCESS_LEVELS !! name =
    if decide (name = "public") then Some 0
    else if decide (name = "user") then Some 1
    else if decide (name = "admin") then Some 2
    else if decide (name = "super_admin") then Some 3
    else None.
Proof.
  unfold ACCESS_LEVELS. rewrite !lookup_insert, lookup_empty.
  repeat case_decide; congruence.
Qed.

Lemma rank_of_role_get (role : string) :
  dict_get ROLE_HIERARCHY (JStr role) 0 = Ok (rank_of_role role).
Proof. unfold dict_get, rank_of_role. by destruct (ROLE_HIERARCHY !! role). Qed.

Lemma rank_of_level_get (level : string) :
  dict_get ACCESS_LEVELS (JStr level) 0 = Ok (rank_of_level level).
Proof. unfold dict_get, rank_of_level. by destruct (ACCESS_LEVELS !! level). Qed.

Lemma dict_get_unhashable (table : gmap string Z) (key : jval) (dflt : Z) :
  unhashable key = true → dict_get table key dflt = Except TypeError.
Proof. by destruct key. Qed.

Lemma dict_get_hashable (table : gmap string Z) (key : jval) (dflt : Z) :
  unhashable key = false → ∃ n : Z, dict_get table key dflt = Ok n.
Proof. destruct key; intros; try done; by eexists. Qed.

(** The decision for a role whose rank the table lookup returns. *)
Lemma can_access_rank (role : jval) (level : string) (n : Z) :
  dict_get ROLE_HIERARCHY role 0 = Ok n →
  can_access role level = Ok (rank_of_level level <=? n).
Proof.
  intros Hrank. unfold can_access. rewrite Hrank, rank_of_level_get. cbn.
  by rewrite Z.geb_leb.
Qed.

Lemma can_access_unhashable (role : jval) (level : string) :
  unhashable role = true → can_access role level = Except TypeError.
Proof.
  intros Hrole. unfold can_access.
  by rewrite (dict_get_unhashable _ role).
Qed.

Lemma can_access_ranks (role level : string) :
  can_access (JStr role) level = Ok (rank_of_level level <=? rank_of_role role).
Proof. apply can_access_rank, rank_of_role_get. Qed.

Lemma Ok_true_leb (a b : Z) : @Ok bool (a <=? b) = Ok true ↔ a ≤ b.
Proof.
  rewrite <-Z.leb_le. split; [by intros [= ->]|by intros ->].
Qed.

Lemma rank_of_role_range (role : string) : 0 ≤ rank_of_role role ≤ 3.
Proof.
  unfold rank_of_role. rewrite ROLE_HIERARCHY_lookup.
  repeat case_decide; lia.
Qed.

Lemma rank_of_level_range (level : string) : 0 ≤ rank_of_level level ≤ 3.
Proof.
  unfold rank_of_level. rewrite ACCESS_LEVELS_lookup.
  repeat case_decide; lia.
Qed.

(** ** The access decision *)

(** C1. For all strings [role] and [level], [can_access] answers true
    exactly when the rank of the role is at least the rank of the level,
    a name missing from its table having rank 0; so an unknown role may
    read a public item and a user may read an item of unknown level. *)
Theorem can_access_iff_rank_ge :
  (∀ role level : string,
     can_access (JStr role) level = Ok true
     ↔ rank_of_role role >= rank_of_level level)
  ∧ (∀ role : string, ROLE_HIERARCHY !! role = None → rank_of_role role = 0)
  ∧ (∀ level : string, ACCESS_LEVELS !! level = None → rank_of_level level = 0)
  ∧ ROLE_HIERARCHY !! "unknown_role" = None
  ∧ ACCESS_LEVELS !! "unknown_level" = None
  ∧ can_access (JStr "unknown_role") "public" = Ok true
  ∧ can_access (JStr "user") "unknown_level" = Ok true.
Proof.
  split_and!.
  - intros role level. rewrite can_access_ranks, Ok_true_leb. lia.
  - intros role Hnone. unfold rank_of_role. by rewrite Hnone.
  - intros level Hnone. unfold rank_of_level. by rewrite Hnone.
  - by rewrite ROLE_HIERARCHY_lookup.
  - by rewrite ACCESS_LEVELS_lookup.
  - rewrite can_access_ranks. unfold rank_of_role, rank_of_level.
    by rewrite ROLE_HIERARCHY_lookup, ACCESS_LEVELS_lookup.
  - rewrite can_access_ranks. unfold rank_of_role, rank_of_level.
    by rewrite ROLE_HIERARCHY_lookup, ACCESS_LEVELS_lookup.
Qed.

(** C5. Monotonicity: a role whose rank is at least that of another role
    can access every level the other role can access. *)
Theorem can_access_monotone (r1 r2 level : string) :
  rank_of_role r1 >= rank_of_role r2 →
  can_access (JStr r2) level = Ok true →
  can_access (JStr r1) level = Ok true.
Proof.
  rewrite !can_access_ranks, !Ok_true_leb. lia.
Qed.

(** C6. A name present in both tables has the same rank in both; the
    shared names are user, admin and super_admin; and each table lists its
    four names with the ranks 0, 1, 2, 3 in order of privilege, so ranks
    stay within 0-3 and distinct names of a table have distinct ranks. *)
Theorem rank_tables_consistent :
  (∀ (name : string) (r l : Z),
     ROLE_HIERARCHY !! name = Some r → ACCESS_LEVELS !! name = Some l → r = l)
  ∧ (∀ name : string,
       is_Some (ROLE_HIERARCHY !! name) ∧ is_Some (ACCESS_LEVELS !! name)
       ↔ name ∈ ["user"; "admin"; "super_admin"])
  ∧ (λ name, ROLE_HIERARCHY !! name) <$> ["guest"; "user"; "admin"; "super_admin"]
    = [Some 0; Some 1; Some 2; Some 3]
  ∧ (λ name, ACCESS_LEVELS !! name) <$> ["public"; "user"; "admin"; "super_admin"]
    = [Some 0; Some 1; Some 2; Some 3]
  ∧ (∀ name : string,
       is_Some (ROLE_HIERARCHY !! name)
       ↔ name ∈ ["guest"; "user"; "admin"; "super_admin"])
  ∧ (∀ name : string,
       is_Some (ACCESS_LEVELS !! name)
       ↔ name ∈ ["public"; "user"; "admin"; "super_admin"])
  ∧ (∀ (n1 n2 : string) (r : Z),
       ROLE_HIERARCHY !! n1 = Some r → ROLE_HIERARCHY !! n2 = Some r → n1 = n2)
  ∧ (∀ (n1 n2 : string) (l : Z),
       ACCESS_LEVELS !! n1 = Some l → ACCESS_LEVELS !! n2 = Some l → n1 = n2).
Proof.
  split_and!.
  - intros name r l. rewrite ROLE_HIERARCHY_lookup, ACCESS_LEVELS_lookup.
    repeat case_decide; congruence.
  - intros name. rewrite ROLE_HIERARCHY_lookup, ACCESS_LEVELS_lookup.
    rewrite !elem_of_cons, elem_of_nil, <-!not_eq_None_Some.
    table_cases.
  - by rewrite !fmap_cons, !ROLE_HIERARCHY_lookup.
  - by rewrite !fmap_cons, !ACCESS_LEVELS_lookup.
  - intros name. rewrite ROLE_HIERARCHY_lookup.
    rewrite !elem_of_cons, elem_of_nil, <-!not_eq_None_Some.
    table_cases.
  - intros name. rewrite ACCESS_LEVELS_lookup.
    rewrite !elem_of_cons, elem_of_nil, <-!not_eq_None_Some.
    table_cases.
  - intros n1 n2 r. rewrite !ROLE_HIERARCHY_lookup.
    repeat case_decide; congruence.
  - intros n1 n2 l. rewrite !ACCESS_LEVELS_lookup.
    repeat case_decide; congruence.
Qed.

(** ** What a verified payload looks like *)

Lemma bind_Ok_inv {A B} (r : result A) (k : A → result B) (b : B) :
  r ≫= k = Ok b → ∃ a : A, r = Ok a ∧ k a = Ok b.
Proof. destruct r as [a| |]; [|discriminate..]. intros Hk. by exists a. Qed.

Lemma jwt_decode_Ok_inv (token : jwt Sig) (key : string) (algs : list string)
    (now : Z) (payload : gmap string jval) :
  jwt_decode token key algs now = Ok payload →
  payload = jwt_claims token ∧ validate_claims (jwt_claims token) now = Ok ().
Proof.
  unfold jwt_decode. destruct (negb _); [discriminate|].
  destruct (negb _); [discriminate|].
  intros ([] & Hvalid & [= <-])%bind_Ok_inv. done.
Qed.

Lemma verify_token_Ok_inv (token : jwt Sig) (now : Z) (payload : gmap string jval) :
  verify_token token now = Ok payload →
  jwt_decode token JWT_SECRET [JWT_ALGORITHM] now = Ok payload.
Proof.
  unfold verify_token.
  destruct (jwt_decode token JWT_SECRET [JWT_ALGORITHM] now) as [p|e|[| | | |e]];
    by intros [= <-].
Qed.

(** The subject of a verified payload is a string, when there is one. *)
Lemma verify_token_sub (token : jwt Sig) (now : Z) (payload : gmap string jval) :
  verify_token token now = Ok payload →
  payload !! "sub" = None ∨ ∃ s : string, payload !! "sub" = Some (JStr s).
Proof.
  intros (-> & Hvalid)%verify_token_Ok_inv%jwt_decode_Ok_inv.
  unfold validate_claims in Hvalid.
  apply bind_Ok_inv in Hvalid as ([] & _ & Hvalid).
  apply bind_Ok_inv in Hvalid as ([] & _ & Hvalid).
  apply bind_Ok_inv in Hvalid as ([] & _ & Hvalid).
  apply bind_Ok_inv in Hvalid as ([] & Hsub & _).
  unfold validate_str in Hsub.
  destruct (jwt_claims token !! "sub") as [[]|]; try discriminate;
    [right; by eexists | by left].
Qed.

Lemma stored_owner_verified (token : jwt Sig) (now : Z) (payload : gmap string jval) :
  verify_token token now = Ok payload →
  stored_owner (default (JStr "anonymous") (payload !! "sub"))
  = Ok (default (JStr "anonymous") (payload !! "sub")).
Proof.
  intros [->|[s ->]]%verify_token_sub; done.
Qed.

Lemma renderable_sub (token : jwt Sig) (now : Z) (payload : gmap string jval) :
  verify_token token now = Ok payload →
  renderable (default (JStr "anonymous") (payload !! "sub")) = true.
Proof. intros [->|[s ->]]%verify_token_sub; done. Qed.

Lemma route_get_profile_verified (token : jwt Sig) (now : Z)
    (payload : gmap string jval) :
  verify_token token now = Ok payload →
  route_get_profile token now = Ok (get_profile payload).
Proof.
  intros Hauth. unfold route_get_profile. rewrite Hauth. cbn.
  by destruct (verify_token_sub _ _ _ Hauth) as [->|[s ->]].
Qed.

(** ** Listing items *)

#[local] Instance newer_or_equal_total : Total newer_or_equal.
Proof. intros a b. unfold newer_or_equal. lia. Qed.

#[local] Instance newer_or_equal_trans : Transitive newer_or_equal.
Proof. intros a b c. unfold newer_or_equal. lia. Qed.

Lemma select_items_newest_first (table : list item_row) :
  StronglySorted newer_or_equal (select_items table).
Proof. apply StronglySorted_merge_sort; apply _. Qed.

Lemma select_items_perm (table : list item_row) : select_items table ≡ₚ table.
Proof. apply merge_sort_Permutation. Qed.

Lemma StronglySorted_sublist_of {A} (R : relation A) (l k : list A) :
  l `sublist_of` k → StronglySorted R k → StronglySorted R l.
Proof.
  induction 1 as [|x l k Hsub IH|x l k Hsub IH]; intros Hk.
  - constructor.
  - apply StronglySorted_inv in Hk as [Hk Hx]. constructor; [by apply IH|].
    rewrite Forall_forall in Hx |- *. intros y Hy.
    apply Hx. by eapply elem_of_sublist.
  - apply StronglySorted_inv in Hk as [Hk _]. by apply IH.
Qed.

(** For a role Python can hash, the loop appends every accessible item to
    what it has collected. *)
Lemma collect_accessible_from (user_role : jval) (all_items acc : list item_row) :
  unhashable user_role = false →
  collect_accessible user_role all_items acc
  = Ok (acc ++ filter (λ r, can_access user_role (row_access_level r) = Ok true)
                 all_items).
Proof.
  intros Hrole. destruct (dict_get_hashable ROLE_HIERARCHY user_role 0 Hrole)
    as [n Hn].
  revert acc. induction all_items as [|item rest IH]; intros acc;
    cbn [collect_accessible].
  - by rewrite app_nil_r.
  - rewrite (can_access_rank _ _ n Hn). cbn [mbind result_bind]. rewrite IH.
    destruct (rank_of_level (row_access_level item) <=? n) eqn:Hacc.
    + rewrite filter_cons_True by by rewrite (can_access_rank _ _ n Hn), Hacc.
      by rewrite <-app_assoc.
    + rewrite filter_cons_False; [done|].
      by rewrite (can_access_rank _ _ n Hn), Hacc.
Qed.

(** For a list or dict role, the first item makes the loop raise. *)
Lemma collect_accessible_unhashable (user_role : jval)
    (all_items acc : list item_row) :
  unhashable user_role = true → all_items ≠ [] →
  collect_accessible user_role all_items acc = Except TypeError.
Proof.
  intros Hrole Hne. destruct all_items as [|item rest]; [done|].
  cbn [collect_accessible]. by rewrite can_access_unhashable.
Qed.

Lemma get_items_hashable (payload : gmap string jval) (table : list item_row) :
  unhashable (get_user_role payload) = false →
  get_items payload table
  = Ok (ItemsResponse.Build
          (default (JStr "anonymous") (payload !! "sub"))
          (get_user_role payload)
          (filter (λ r, can_access (get_user_role payload) (row_access_level r)
                        = Ok true) (select_items table))
          (Z.of_nat (length
             (filter (λ r, can_access (get_user_role payload) (row_access_level r)
                           = Ok true) (select_items table))))
          (Z.of_nat (length (select_items table)))).
Proof.
  intros Hrole. unfold get_items. cbv zeta.
  by rewrite collect_accessible_from.
Qed.

Lemma get_items_unhashable (payload : gmap string jval) (table : list item_row) :
  unhashable (get_user_role payload) = true → table ≠ [] →
  get_items payload table = Except TypeError.
Proof.
  intros Hrole Hne. unfold get_items. cbv zeta.
  rewrite collect_accessible_unhashable; [done..|].
  intros Hnil. apply Hne. apply Permutation_nil_r.
  by rewrite <-Hnil, select_items_perm.
Qed.

(** The listing route for a verified payload whose role Python can hash
    and the server can write. *)
Lemma route_get_items_verified (token : jwt Sig) (now : Z)
    (payload : gmap string jval) (table : list item_row) :
  verify_token token now = Ok payload →
  unhashable (get_user_role payload) = false →
  renderable (get_user_role payload) = true →
  route_get_items token now table = get_items payload table.
Proof.
  intros Hauth Hhash Hrender. unfold route_get_items. rewrite Hauth.
  cbn [mbind result_bind]. rewrite get_items_hashable by done.
  cbn [mbind result_bind ItemsResponse.user ItemsResponse.role].
  by rewrite (renderable_sub _ _ _ Hauth), Hrender.
Qed.

(** C3. For a request authenticated by [token], the role being the
    token's role claim or guest when it has none (any value Python can
    hash and the server can write back): the items returned are exactly the stored rows the role can
    access, in the order of the newest-first listing of the table (a
    subsequence of that listing, so newest first itself), and the two
    counts are the number of returned items and the number of stored
    rows. *)
Theorem list_items_accessible_newest_first
    (token : jwt Sig) (now : Z) (payload : gmap string jval)
    (table : list item_row) :
  verify_token token now = Ok payload →
  unhashable (default (JStr "guest") (payload !! "role")) = false →
  renderable (default (JStr "guest") (payload !! "role")) = true →
  ∃ resp : ItemsResponse.t,
    route_get_items token now table = Ok resp
    ∧ ItemsResponse.role resp = default (JStr "guest") (payload !! "role")
    ∧ ItemsResponse.items resp
      = filter (λ r, can_access (ItemsResponse.role resp) (row_access_level r)
                     = Ok true)
          (select_items table)
    ∧ select_items table ≡ₚ table
    ∧ StronglySorted newer_or_equal (select_items table)
    ∧ ItemsResponse.items resp `sublist_of` select_items table
    ∧ StronglySorted newer_or_equal (ItemsResponse.items resp)
    ∧ (∀ r : item_row,
         r ∈ ItemsResponse.items resp
         ↔ r ∈ table
           ∧ can_access (ItemsResponse.role resp) (row_access_level r) = Ok true)
    ∧ ItemsResponse.total_accessible resp
      = Z.of_nat (length (ItemsResponse.items resp))
    ∧ ItemsResponse.total_items resp = Z.of_nat (length table).
Proof.
  intros Hauth Hrole Hrender.
  rewrite (route_get_items_verified _ _ payload) by done.
  rewrite get_items_hashable by done.
  eexists. split; [reflexivity|]. cbn.
  split_and!; try done.
  - apply select_items_perm.
  - apply select_items_newest_first.
  - apply sublist_filter.
  - eapply StronglySorted_sublist_of; [apply sublist_filter|].
    apply select_items_newest_first.
  - intros r. rewrite list_elem_of_filter, select_items_perm.
    split; intros [? ?]; by split.
  - by rewrite select_items_perm.
Qed.
(** ** Creating items *)

Lemma access_level_known (level : string) :
  is_Some (ACCESS_LEVELS !! level)
  ↔ level ∈ ["public"; "user"; "admin"; "super_admin"].
Proof.
  rewrite ACCESS_LEVELS_lookup.
  rewrite !elem_of_cons, elem_of_nil, <-!not_eq_None_Some.
  table_cases.
Qed.

Lemma max_rowid_bound (table : list item_row) :
  Forall (λ r, row_id r < max_rowid table + 1) table.
Proof.
  induction table as [|r table IH]; [constructor|].
  unfold max_rowid in *. cbn [foldr]. constructor; [lia|].
  eapply Forall_impl; [exact IH|]. cbn. intros; lia.
Qed.

(** The outcomes of the handler, by the tests it makes. *)
Lemma create_item_invalid_level item payload now table :
  ¬ is_Some (ACCESS_LEVELS !! CreateItem.access_level item) →
  create_item item payload now table
  = (Raise (HTTPException 400 "Invalid access level"), table).
Proof.
  intros Hbad. unfold create_item. cbv zeta.
  by rewrite bool_decide_eq_false_2.
Qed.

Lemma create_item_unhashable item payload now table :
  is_Some (ACCESS_LEVELS !! CreateItem.access_level item) →
  unhashable (get_user_role payload) = true →
  create_item item payload now table = (Except TypeError, table).
Proof.
  intros Hok Hrole. unfold create_item. cbv zeta.
  rewrite bool_decide_eq_true_2 by done.
  by rewrite can_access_unhashable.
Qed.

Lemma create_item_forbidden item payload now table :
  is_Some (ACCESS_LEVELS !! CreateItem.access_level item) →
  can_access (get_user_role payload) (CreateItem.access_level item) = Ok false →
  create_item item payload now table
  = (Raise (HTTPException 403
              ("Insufficient permissions to create "
               +:+ CreateItem.access_level item +:+ " items")), table).
Proof.
  intros Hok Hdenied. unfold create_item. cbv zeta.
  rewrite bool_decide_eq_true_2 by done. by rewrite Hdenied.
Qed.

Lemma create_item_unbound item payload now table (x : py_exception) :
  is_Some (ACCESS_LEVELS !! CreateItem.access_level item) →
  can_access (get_user_role payload) (CreateItem.access_level item) = Ok true →
  stored_owner (default (JStr "anonymous") (payload !! "sub")) = Except x →
  create_item item payload now table = (Except x, table).
Proof.
  intros Hok Hallowed Hbind. unfold create_item. cbv zeta.
  rewrite bool_decide_eq_true_2 by done. by rewrite Hallowed, Hbind.
Qed.

Lemma create_item_inserted item payload now table (owner : jval) :
  is_Some (ACCESS_LEVELS !! CreateItem.access_level item) →
  can_access (get_user_role payload) (CreateItem.access_level item) = Ok true →
  stored_owner (default (JStr "anonymous") (payload !! "sub")) = Ok owner →
  create_item item payload now table
  = (Ok (ItemCreated.Build "Item created" (max_rowid table + 1)
           (default (JStr "anonymous") (payload !! "sub"))
           (CreateItem.access_level item)),
     table ++ [ItemRow (max_rowid table + 1)
                 (CreateItem.title item) (CreateItem.description item)
                 owner (CreateItem.access_level item) now]).
Proof.
  intros Hok Hallowed Hbind. unfold create_item. cbv zeta.
  rewrite bool_decide_eq_true_2 by done. by rewrite Hallowed, Hbind.
Qed.

(** [can_access] returns a boolean or raises [TypeError], on a role Python
    cannot hash. *)
Lemma can_access_cases (role : jval) (level : string) :
  (∃ b : bool, can_access role level = Ok b)
  ∨ (unhashable role = true ∧ can_access role level = Except TypeError).
Proof.
  destruct (unhashable role) eqn:Hrole.
  - right. split; [done|]. by apply can_access_unhashable.
  - left. destruct (dict_get_hashable ROLE_HIERARCHY role 0 Hrole) as [n Hn].
    eexists. by apply can_access_rank.
Qed.

Lemma stored_owner_cases (v : jval) :
  (∃ owner : jval, stored_owner v = Ok owner)
  ∨ (∃ x : py_exception, stored_owner v = Except x).
Proof.
  destruct v as [| |z|x| | |]; cbn [stored_owner];
    try destruct ((- 2 ^ 63 <=? z) && (z <? 2 ^ 63)); try destruct x;
    first [left; by eexists | right; by eexists].
Qed.

Lemma create_item_owner item payload now table body table' :
  create_item item payload now table = (Ok body, table') →
  ItemCreated.owner body = default (JStr "anonymous") (payload !! "sub").
Proof.
  destruct (decide (is_Some (ACCESS_LEVELS !! CreateItem.access_level item)))
    as [Hok|Hbad]; [|by rewrite create_item_invalid_level].
  destruct (can_access_cases (get_user_role payload) (CreateItem.access_level item))
    as [[[] Hacc]|[Hrole Hacc]].
  - destruct (stored_owner_cases (default (JStr "anonymous") (payload !! "sub")))
      as [[owner Hbind]|[x Hbind]].
    + rewrite (create_item_inserted _ _ _ _ _ Hok Hacc Hbind). by intros [= <- _].
    + by rewrite (create_item_unbound _ _ _ _ _ Hok Hacc Hbind).
  - by rewrite create_item_forbidden.
  - by rewrite create_item_unhashable.
Qed.

(** Behind [verify_token] the create route answers what the handler
    returns: the owner it repeats is a string. *)
Lemma route_create_item_verified (token : jwt Sig) (item : CreateItem.t) (now : Z)
    (payload : gmap string jval) (table : list item_row) :
  verify_token token now = Ok payload →
  route_create_item token item now table = create_item item payload now table.
Proof.
  intros Hauth. unfold route_create_item. rewrite Hauth. cbn [step].
  destruct (create_item item payload now table) as [[body|e|x] table'] eqn:Hrun;
    [|done..].
  cbn [mbind result_bind]. apply create_item_owner in Hrun as ->.
  by rewrite (renderable_sub _ _ _ Hauth).
Qed.

(** C2. For a request authenticated by [token], the role being the
    token's role claim or guest when it has none: a level outside
    public, user, admin, super_admin is refused with 400 "Invalid access
    level"; a valid level the role cannot access is refused with 403;
    otherwise one row is appended whose owner is the token's subject, and
    the fresh id and the requested level are returned. *)
Theorem create_item_outcome
    (token : jwt Sig) (item : CreateItem.t) (now : Z)
    (payload : gmap string jval) (table : list item_row) :
  verify_token token now = Ok payload →
  let role := default (JStr "guest") (payload !! "role") in
  let level := CreateItem.access_level item in
  (level ∉ ["public"; "user"; "admin"; "super_admin"] →
     route_create_item token item now table
     = (Raise (HTTPException 400 "Invalid access level"), table))
  ∧ (level ∈ ["public"; "user"; "admin"; "super_admin"] →
     can_access role level = Ok false →
     route_create_item token item now table
     = (Raise (HTTPException 403
                 ("Insufficient permissions to create " +:+ level +:+ " items")),
        table))
  ∧ (level ∈ ["public"; "user"; "admin"; "super_admin"] →
     can_access role level = Ok true →
     ∃ (new_id : Z) (owner : jval),
       route_create_item token item now table
       = (Ok (ItemCreated.Build "Item created" new_id owner level),
          table ++ [ItemRow new_id (CreateItem.title item)
                      (CreateItem.description item) owner level now])
       ∧ owner = default (JStr "anonymous") (payload !! "sub")
       ∧ (∀ subject : jval, payload !! "sub" = Some subject → owner = subject)
       ∧ Forall (λ r, row_id r < new_id) table).
Proof.
  intros Hauth role level. rewrite (route_create_item_verified _ _ _ payload) by done.
  split_and!.
  - intros Hbad. apply create_item_invalid_level.
    by rewrite access_level_known.
  - intros Hok Hdenied. apply create_item_forbidden; [|done].
    by rewrite access_level_known.
  - intros Hok Hallowed. eexists _, _. split_and!.
    + apply create_item_inserted; [|done|].
      * by rewrite access_level_known.
      * by eapply stored_owner_verified.
    + done.
    + by intros subject ->.
    + apply max_rowid_bound.
Qed.

(** C10. A token that verifies and has no "sub" claim is served like any
    other: the listing names the user "anonymous", an item that passes
    the level and role tests is stored with owner "anonymous", and the
    profile has no username.  What can still go wrong has nothing to do
    with the subject: creation is refused only by the level and role
    tests, and the only exceptions are the [TypeError] of a role claim
    that is a list or a dict and, on the listing, the [ValueError] of a
    role claim the server cannot write back. *)
Theorem missing_subject_is_anonymous
    (token : jwt Sig) (now : Z) (payload : gmap string jval) :
  verify_token token now = Ok payload →
  payload !! "sub" = None →
  (∀ table : list item_row,
     unhashable (get_user_role payload) = false →
     renderable (get_user_role payload) = true →
     ∃ resp : ItemsResponse.t,
       route_get_items token now table = Ok resp
       ∧ ItemsResponse.user resp = JStr "anonymous")
  ∧ (∀ (item : CreateItem.t) (table : list item_row),
       is_Some (ACCESS_LEVELS !! CreateItem.access_level item) →
       can_access (get_user_role payload) (CreateItem.access_level item) = Ok true →
       ∃ new_id : Z,
         route_create_item token item now table
         = (Ok (ItemCreated.Build "Item created" new_id (JStr "anonymous")
                  (CreateItem.access_level item)),
            table ++ [ItemRow new_id (CreateItem.title item)
                        (CreateItem.description item) (JStr "anonymous")
                        (CreateItem.access_level item) now]))
  ∧ (∀ (item : CreateItem.t) (table : list item_row) (e : http_exception),
       fst (route_create_item token item now table) = Raise e →
       e = HTTPException 400 "Invalid access level"
       ∨ e = HTTPException 403
               ("Insufficient permissions to create "
                +:+ CreateItem.access_level item +:+ " items"))
  ∧ (∀ (item : CreateItem.t) (table : list item_row) (x : py_exception),
       fst (route_create_item token item now table) = Except x →
       x = TypeError ∧ unhashable (get_user_role payload) = true)
  ∧ (∀ (table : list item_row) (x : py_exception),
       route_get_items token now table = Except x →
       (x = TypeError ∧ unhashable (get_user_role payload) = true)
       ∨ (x = ValueError ∧ renderable (get_user_role payload) = false))
  ∧ route_get_profile token now = Ok (Profile.Build None "This is your profile").
Proof.
  intros Hauth Hsub.
  assert (Hcreate : ∀ (item : CreateItem.t) (table : list item_row),
    (∃ e, fst (create_item item payload now table) = Raise e
          ∧ (e = HTTPException 400 "Invalid access level"
             ∨ e = HTTPException 403
                     ("Insufficient permissions to create "
                      +:+ CreateItem.access_level item +:+ " items")))
    ∨ (fst (create_item item payload now table) = Except TypeError
       ∧ unhashable (get_user_role payload) = true)
    ∨ (∃ body, fst (create_item item payload now table) = Ok body)).
  { intros item table.
    destruct (decide (is_Some (ACCESS_LEVELS !! CreateItem.access_level item)))
      as [Hok|Hbad].
    - destruct (can_access_cases (get_user_role payload)
                  (CreateItem.access_level item)) as [[[] Hacc]|[Hrole Hacc]].
      + right. right. eexists.
        erewrite create_item_inserted; [done..|]. by rewrite Hsub.
      + left. eexists. rewrite create_item_forbidden by done. split; [done|].
        by right.
      + right. left. by rewrite create_item_unhashable.
    - left. eexists. rewrite create_item_invalid_level by done. split; [done|].
      by left. }
  split_and!.
  - intros table Hrole Hrender.
    rewrite (route_get_items_verified _ _ payload) by done.
    rewrite get_items_hashable by done. eexists. split; [done|].
    cbn. by rewrite Hsub.
  - intros item table Hok Hallowed. eexists.
    rewrite (route_create_item_verified _ _ _ payload) by done.
    erewrite create_item_inserted; [|done..|by rewrite Hsub].
    by rewrite Hsub.
  - intros item table e. rewrite (route_create_item_verified _ _ _ payload) by done.
    intros He.
    destruct (Hcreate item table) as [(e' & He' & Hcases)|[[He' _]|[body He']]];
      congruence.
  - intros item table x. rewrite (route_create_item_verified _ _ _ payload) by done.
    intros Hx.
    destruct (Hcreate item table) as [(e' & He' & _)|[[He' Hrole]|[body He']]];
      [congruence| |congruence].
    split; [congruence|done].
  - intros table x. unfold route_get_items. rewrite Hauth.
    cbn [mbind result_bind].
    destruct (renderable (get_user_role payload)) eqn:Hrender.
    + destruct (unhashable (get_user_role payload)) eqn:Hrole.
      * destruct table as [|r table].
        -- unfold get_items. cbn. rewrite Hsub, Hrender. discriminate.
        -- rewrite get_items_unhashable by done. intros [= <-]. by left.
      * rewrite get_items_hashable by done. cbn. rewrite Hsub, Hrender.
        discriminate.
    + destruct (get_items payload table) as [body|e|x'] eqn:Hget.
      * assert (ItemsResponse.role body = get_user_role payload) as Hbody.
        { revert Hget. unfold get_items. cbv zeta.
          destruct (collect_accessible _ _ _); [|discriminate..].
          by intros [= <-]. }
        cbn [mbind result_bind]. rewrite Hbody, Hrender, andb_false_r.
        intros [= <-]. by right.
      * discriminate.
      * destruct (unhashable (get_user_role payload)) eqn:Hrole.
        -- destruct table as [|r table].
           ++ revert Hget. unfold get_items. cbn. discriminate.
           ++ rewrite get_items_unhashable in Hget by done.
              injection Hget as <-. intros [= <-]. by left.
        -- by rewrite get_items_hashable in Hget.
  - rewrite (route_get_profile_verified _ _ payload) by done.
    unfold get_profile. by rewrite Hsub.
Qed.
(** ** Login and the token it issues *)

Lemma login_payload_claims (username user_role : string) (now : Z) :
  login_payload username user_role now !! "sub" = Some (JStr username)
  ∧ login_payload username user_role now !! "role" = Some (JStr user_role)
  ∧ login_payload username user_role now !! "iat" = Some (JInt now)
  ∧ login_payload username user_role now !! "exp" = Some (JInt (now + 3600))
  ∧ login_payload username user_role now !! "scope" = Some (JStr "read write").
Proof.
  unfold login_payload, JWT_EXPIRE_SECONDS.
  split_and!; by simplify_map_eq.
Qed.

Lemma login_payload_absent (username user_role : string) (now : Z) :
  login_payload username user_role now !! "nbf" = None
  ∧ login_payload username user_role now !! "jti" = None
  ∧ login_payload username user_role now !! "at_hash" = None.
Proof. unfold login_payload. split_and!; by simplify_map_eq. Qed.

Lemma login_payload_dom (username user_role : string) (now : Z) :
  dom (login_payload username user_role now)
  = list_to_set (C := gset string) ["sub"; "role"; "iat"; "exp"; "scope"].
Proof.
  unfold login_payload. rewrite !dom_insert_L, dom_empty_L. cbn. set_solver.
Qed.

Lemma validate_login_payload (username user_role : string) (issued now : Z) :
  validate_claims (login_payload username user_role issued) now
  = if expired (issued + 3600) now then Except (JWTError ExpiredSignatureError)
    else Ok ().
Proof.
  unfold validate_claims, validate_iat, validate_nbf, validate_exp,
    validate_str, validate_at_hash.
  destruct (login_payload_claims username user_role issued)
    as (-> & _ & -> & -> & _).
  destruct (login_payload_absent username user_role issued) as (-> & -> & ->).
  cbn. by destruct (expired (issued + 3600) now).
Qed.

Lemma decode_login_token (username user_role : string) (issued now : Z) :
  jwt_decode
    (jwt_encode (login_payload username user_role issued) JWT_SECRET JWT_ALGORITHM)
    JWT_SECRET [JWT_ALGORITHM] now
  = if expired (issued + 3600) now then Except (JWTError ExpiredSignatureError)
    else Ok (login_payload username user_role issued).
Proof.
  unfold jwt_decode, jwt_encode. cbn [jwt_alg jwt_claims jwt_signature].
  rewrite bool_decide_eq_true_2 by apply list_elem_of_here.
  rewrite bool_decide_eq_true_2 by done. cbn [negb].
  rewrite validate_login_payload. by destruct (expired (issued + 3600) now).
Qed.

Lemma verify_login_token (username user_role : string) (issued now : Z) :
  verify_token
    (jwt_encode (login_payload username user_role issued) JWT_SECRET JWT_ALGORITHM)
    now
  = if expired (issued + 3600) now then Raise (HTTPException 401 "Invalid token")
    else Ok (login_payload username user_role issued).
Proof.
  unfold verify_token. rewrite decode_login_token.
  by destruct (expired (issued + 3600) now).
Qed.

Lemma not_expired_at_issue (T : Z) : expired (T + 3600) T = false.
Proof. unfold expired. destruct valid_at_exp; lia. Qed.

Lemma expired_after_ttl (T : Z) : expired (T + 3600) (T + 3600 + 1) = true.
Proof. unfold expired. destruct valid_at_exp; lia. Qed.

(** C4. Issue then validate: when the normalised username [u] is in the
    users table with role [user_role row] and the password matches, the
    token issued at time [T] carries exactly the five claims sub = u,
    role, iat = T, exp = T + 3600 and scope = "read write"; verifying it
    at [T] returns those claims, and verifying it at [T + 3600 + 1] is
    refused as expired, which the resource server reports as 401. *)
Theorem login_token_round_trip
    (T : Z) (user_data : UserLogin.t) (users : gmap string (user_row Hash))
    (u : string) (row : user_row Hash) :
  lower (strip (UserLogin.username user_data)) = u →
  users !! u = Some row →
  bcrypt_checkpw (UserLogin.password user_data) (password_hash row) = Ok true →
  ∃ token : jwt Sig,
    login T user_data users = Ok (TokenResponse.Build token "Bearer" 3600)
    ∧ jwt_claims token
      = list_to_map [("sub", JStr u); ("role", JStr (user_role row));
                     ("iat", JInt T); ("exp", JInt (T + 3600));
                     ("scope", JStr "read write")]
    ∧ dom (jwt_claims token)
      = list_to_set (C := gset string) ["sub"; "role"; "iat"; "exp"; "scope"]
    ∧ verify_token token T = Ok (jwt_claims token)
    ∧ jwt_claims token !! "sub" = Some (JStr u)
    ∧ jwt_claims token !! "role" = Some (JStr (user_role row))
    ∧ jwt_decode token JWT_SECRET [JWT_ALGORITHM] (T + 3600 + 1)
      = Except (JWTError ExpiredSignatureError)
    ∧ verify_token token (T + 3600 + 1) = Raise (HTTPException 401 "Invalid token").
Proof.
  intros Hname Hrow Hpw. unfold login. cbv zeta.
  rewrite Hname, Hrow, Hpw. cbn [mbind result_bind negb mret result_ret].
  eexists. split; [reflexivity|].
  cbn [jwt_encode jwt_claims].
  destruct (login_payload_claims u (user_role row) T) as (Hsub & Hrole & _).
  fold (jwt_encode (login_payload u (user_role row) T) JWT_SECRET JWT_ALGORITHM).
  rewrite !verify_login_token, decode_login_token.
  rewrite not_expired_at_issue, expired_after_ttl.
  split_and!; [done| |done..].
  apply login_payload_dom.
Qed.

(** When bcrypt takes the password, a login whose normalised username is
    not in the users table and a login whose password does not match the
    stored hash raise the very same exception. *)
Lemma login_refused_with_401
    (now : Z) (user_data : UserLogin.t) (users : gmap string (user_row Hash)) :
  users !! lower (strip (UserLogin.username user_data)) = None
  ∨ (∃ row : user_row Hash,
       users !! lower (strip (UserLogin.username user_data)) = Some row
       ∧ bcrypt_checkpw (UserLogin.password user_data) (password_hash row)
         = Ok false) →
  login now user_data users
  = Raise (HTTPException 401 "Invalid username or password").
Proof.
  unfold login. cbv zeta. intros [Habsent | (row & Hrow & Hwrong)].
  - by rewrite Habsent.
  - by rewrite Hrow, Hwrong.
Qed.

(** A password of more than 72 bytes tells the two cases apart: for a
    stored username bcrypt is called and raises, for an unknown one it is
    never called. *)
Lemma login_long_password
    (now : Z) (user_data : UserLogin.t) (users : gmap string (user_row Hash)) :
  (72 < String.length (UserLogin.password user_data))%nat →
  login now user_data users
  = if users !! lower (strip (UserLogin.username user_data)) is Some _
    then Except ValueError
    else Raise (HTTPException 401 "Invalid username or password").
Proof.
  intros Hlong. unfold login, bcrypt_checkpw. cbv zeta.
  destruct (users !! lower (strip (UserLogin.username user_data))); [|done].
  by rewrite (proj2 (Nat.ltb_lt _ _) Hlong).
Qed.

(** ** Registration *)

Lemma py_not_empty (s : string) : py_not s = true ↔ s = "".
Proof. by destruct s. Qed.

Lemma join_VALID_ROLES : join ", " VALID_ROLES = "user, admin, super_admin".
Proof. reflexivity. Qed.

Lemma bcrypt_hashpw_short (password : string) (salt : Salt) :
  (String.length password ≤ 72)%nat →
  bcrypt_hashpw password salt = Ok (hashpw password salt).
Proof.
  intros Hshort. unfold bcrypt_hashpw.
  by rewrite (proj2 (Nat.ltb_ge _ _) Hshort).
Qed.

Lemma bcrypt_hashpw_long (password : string) (salt : Salt) :
  (72 < String.length password)%nat →
  bcrypt_hashpw password salt = Except ValueError.
Proof.
  intros Hlong. unfold bcrypt_hashpw.
  by rewrite (proj2 (Nat.ltb_lt _ _) Hlong).
Qed.

Lemma strip_nonempty (s : string) : lower (strip s) ≠ "" → s ≠ "".
Proof. by intros Hs ->. Qed.

(** C7 (as the code has it). For a registration whose username is not
    empty once normalised and whose password is not empty and at most 72
    bytes long: it is refused with 400 "Invalid role. Available roles:
    user, admin, super_admin" exactly when the role is none of user, admin
    and super_admin; the users table is then unchanged, and "guest" is
    among the refused roles. *)
Theorem register_invalid_role_iff
    (salt : Salt) (user_data : UserRegister.t)
    (users : gmap string (user_row Hash)) :
  lower (strip (UserRegister.username user_data)) ≠ "" →
  UserRegister.password user_data ≠ "" →
  (String.length (UserRegister.password user_data) ≤ 72)%nat →
  (fst (register_user salt user_data users)
   = Raise (HTTPException 400 "Invalid role. Available roles: user, admin, super_admin")
   ↔ UserRegister.role user_data ∉ ["user"; "admin"; "super_admin"])
  ∧ (UserRegister.role user_data ∉ ["user"; "admin"; "super_admin"] →
     snd (register_user salt user_data users) = users)
  ∧ (UserRegister.role user_data = "guest" →
     fst (register_user salt user_data users)
     = Raise (HTTPException 400 "Invalid role. Available roles: user, admin, super_admin")).
Proof.
  intros Hname Hp Hshort. apply strip_nonempty in Hname as Hu.
  assert (Hrun : register_user salt user_data users
    = if bool_decide (UserRegister.role user_data ∈ VALID_ROLES) then
        match users !! lower (strip (UserRegister.username user_data)) with
        | Some _ => (Raise (HTTPException 400 "Username already exists"), users)
        | None =>
            (Ok (Registered.Build
                   ("User '" +:+ lower (strip (UserRegister.username user_data))
                    +:+ "' registered successfully")),
             <[lower (strip (UserRegister.username user_data)) :=
                 UserRow (hashpw (UserRegister.password user_data) salt)
                   (UserRegister.role user_data)]> users)
        end
      else (Raise (HTTPException 400
                     "Invalid role. Available roles: user, admin, super_admin"),
            users)).
  { unfold register_user. cbv zeta. rewrite join_VALID_ROLES.
    destruct (py_not (UserRegister.username user_data)) eqn:Hnu;
      [by apply py_not_empty in Hnu|].
    destruct (py_not (UserRegister.password user_data)) eqn:Hnp;
      [by apply py_not_empty in Hnp|].
    cbn [orb]. rewrite bcrypt_hashpw_short by done. cbn [step].
    by destruct (bool_decide (UserRegister.role user_data ∈ VALID_ROLES)). }
  assert (Hiff :
    fst (register_user salt user_data users)
    = Raise (HTTPException 400 "Invalid role. Available roles: user, admin, super_admin")
    ↔ UserRegister.role user_data ∉ ["user"; "admin"; "super_admin"]).
  { rewrite Hrun. fold VALID_ROLES.
    destruct (decide (UserRegister.role user_data ∈ VALID_ROLES)) as [Hin|Hout].
    - rewrite bool_decide_eq_true_2 by done.
      destruct (users !! lower (strip (UserRegister.username user_data)));
        cbn; (split; [discriminate|done]).
    - rewrite bool_decide_eq_false_2 by done. cbn. by split. }
  split_and!; [exact Hiff| |].
  - intros Hout. rewrite Hrun. fold VALID_ROLES.
    by rewrite bool_decide_eq_false_2.
  - intros Hrole. apply Hiff.
    rewrite Hrole, !elem_of_cons, elem_of_nil. by intros [?|[?|[?|[]]]].
Qed.

(** The input test of [register_user] looks at the username as sent. *)
Lemma register_input_required
    (salt : Salt) (user_data : UserRegister.t)
    (users : gmap string (user_row Hash)) :
  fst (register_user salt user_data users)
  = Raise (HTTPException 400 "Username and password required")
  ↔ UserRegister.username user_data = "" ∨ UserRegister.password user_data = "".
Proof.
  unfold register_user. cbv zeta. rewrite <-!py_not_empty.
  destruct (py_not (UserRegister.username user_data));
    [cbn; split; [by left|done]|].
  destruct (py_not (UserRegister.password user_data));
    [cbn; split; [by right|done]|].
  cbn [orb]. unfold bcrypt_hashpw.
  destruct (72 <? String.length (UserRegister.password user_data))%nat;
    cbn [step]; [cbn; split; [discriminate|by intros [?|?]]|].
  destruct (negb _); [cbn; split; [discriminate|by intros [?|?]]|].
  destruct (users !! _); cbn; (split; [discriminate|by intros [?|?]]).
Qed.

Lemma lstrip_spaces (s : string) :
  Forall (λ c, py_isspace c = true) (list_ascii_of_string s) → lstrip s = "".
Proof.
  induction s as [|c s IH]; [done|]. cbn. intros Hall.
  apply Forall_cons in Hall as [-> Hall]. by apply IH.
Qed.

(** A username made of whitespace passes the input test and is then
    stripped to the empty string, under which the row is stored. *)
Lemma register_whitespace_username
    (salt : Salt) (user_data : UserRegister.t)
    (users : gmap string (user_row Hash)) :
  UserRegister.username user_data ≠ "" →
  Forall (λ c, py_isspace c = true)
    (list_ascii_of_string (UserRegister.username user_data)) →
  UserRegister.password user_data ≠ "" →
  (String.length (UserRegister.password user_data) ≤ 72)%nat →
  UserRegister.role user_data ∈ VALID_ROLES →
  users !! "" = None →
  register_user salt user_data users
  = (Ok (Registered.Build "User '' registered successfully"),
     <["" := UserRow (hashpw (UserRegister.password user_data) salt)
               (UserRegister.role user_data)]> users).
Proof.
  intros Hu Hspaces Hp Hshort Hrole Hfree. unfold register_user. cbv zeta.
  destruct (py_not (UserRegister.username user_data)) eqn:Hnu;
    [by apply py_not_empty in Hnu|].
  destruct (py_not (UserRegister.password user_data)) eqn:Hnp;
    [by apply py_not_empty in Hnp|].
  cbn [orb]. rewrite bcrypt_hashpw_short by done. cbn [step].
  rewrite bool_decide_eq_true_2 by done. cbn [negb].
  unfold strip. rewrite lstrip_spaces by done. cbn [rstrip lower].
  by rewrite Hfree.
Qed.
(** ** How long a login token is accepted *)

Lemma expired_before (exp now : Z) : now < exp → expired exp now = false.
Proof. unfold expired. destruct valid_at_exp; lia. Qed.

Lemma expired_past (exp now : Z) : exp < now → expired exp now = true.
Proof. unfold expired. destruct valid_at_exp; lia. Qed.

Lemma login_ok_inv (T : Z) (user_data : UserLogin.t)
    (users : gmap string (user_row Hash)) (resp : TokenResponse.t Sig) :
  login T user_data users = Ok resp →
  ∃ row : user_row Hash,
    users !! lower (strip (UserLogin.username user_data)) = Some row
    ∧ bcrypt_checkpw (UserLogin.password user_data) (password_hash row) = Ok true
    ∧ resp = TokenResponse.Build
               (jwt_encode
                  (login_payload (lower (strip (UserLogin.username user_data)))
                     (user_role row) T)
                  JWT_SECRET JWT_ALGORITHM)
               "Bearer" 3600.
Proof.
  unfold login. cbv zeta.
  destruct (users !! lower (strip (UserLogin.username user_data))) as [row|];
    [|discriminate].
  intros ([] & Hpw & Hresp)%bind_Ok_inv; [|discriminate].
  cbn in Hresp. injection Hresp as <-. by exists row.
Qed.

(** X3. Every token handed out by a successful login at time [T] is
    accepted by the resource server at every time before [T + 3600], also
    at times before [T] since the issue time is not compared with the
    clock, and is refused with 401 at every time after [T + 3600]. *)
Theorem login_token_valid_until_expiry
    (T : Z) (user_data : UserLogin.t) (users : gmap string (user_row Hash))
    (resp : TokenResponse.t Sig) :
  login T user_data users = Ok resp →
  TokenResponse.expires_in resp = 3600
  ∧ (∀ now : Z, now < T + 3600 →
       verify_token (TokenResponse.access_token resp) now
       = Ok (jwt_claims (TokenResponse.access_token resp)))
  ∧ (∀ now : Z, T + 3600 < now →
       verify_token (TokenResponse.access_token resp) now
       = Raise (HTTPException 401 "Invalid token")).
Proof.
  intros (row & _ & _ & ->)%login_ok_inv. cbn [TokenResponse.access_token
    TokenResponse.expires_in]. split; [done|].
  split; intros now Hnow; rewrite verify_login_token.
  - by rewrite expired_before.
  - by rewrite expired_past.
Qed.

(** ** The items table under [init_db] and [create_item] *)

Lemma max_rowid_nonneg (table : list item_row) : 0 ≤ max_rowid table.
Proof.
  induction table as [|r table IH]; [done|].
  unfold max_rowid in *. cbn [foldr]. lia.
Qed.

(** What [create_item] leaves in the table: the table as it was, or the
    table with one row appended. *)
Lemma create_item_table_cases item payload now table :
  snd (create_item item payload now table) = table
  ∨ (is_Some (ACCESS_LEVELS !! CreateItem.access_level item)
     ∧ can_access (get_user_role payload) (CreateItem.access_level item) = Ok true
     ∧ ∃ owner : jval,
         snd (create_item item payload now table)
         = table ++ [ItemRow (max_rowid table + 1)
                       (CreateItem.title item) (CreateItem.description item)
                       owner (CreateItem.access_level item) now]).
Proof.
  destruct (decide (is_Some (ACCESS_LEVELS !! CreateItem.access_level item)))
    as [Hok|Hbad]; [|left; by rewrite create_item_invalid_level].
  destruct (can_access_cases (get_user_role payload) (CreateItem.access_level item))
    as [[[] Hacc]|[Hrole Hacc]].
  - destruct (stored_owner_cases (default (JStr "anonymous") (payload !! "sub")))
      as [[owner Hbind]|[x Hbind]].
    + right. split_and!; [done..|]. exists owner.
      by erewrite create_item_inserted.
    + left. by erewrite create_item_unbound.
  - left. by rewrite create_item_forbidden.
  - left. by rewrite create_item_unhashable.
Qed.

Lemma init_db_seeded (now : Z) :
  init_db now []
  = imap (λ i '(title, description, owner, access_level),
            ItemRow (Z.of_nat (S i)) title description (JStr owner) access_level now)
      sample_data.
Proof. vm_compute. reflexivity. Qed.

Lemma init_db_nonempty (now : Z) (table : list item_row) :
  table ≠ [] → init_db now table = table.
Proof. intros Hne. unfold init_db. by destruct table. Qed.

(** X4. Seeding happens once: a table that already has rows is returned
    as it is, so running [init_db] again after it has run changes nothing;
    on the empty table it stores the eighteen samples in order, with ids
    1 to 18, owner "system" and the current timestamp. *)
Theorem init_db_seeds_once (now later : Z) (table : list item_row) :
  (table ≠ [] → init_db now table = table)
  ∧ init_db later (init_db now table) = init_db now table
  ∧ init_db now []
    = imap (λ i '(title, description, owner, access_level),
              ItemRow (Z.of_nat (S i)) title description (JStr owner) access_level now)
        sample_data
  ∧ length (init_db now []) = 18%nat.
Proof.
  split_and!.
  - apply init_db_nonempty.
  - destruct table as [|r table].
    + apply init_db_nonempty. by rewrite init_db_seeded.
    + by rewrite !init_db_nonempty.
  - apply init_db_seeded.
  - by rewrite init_db_seeded.
Qed.

(** X5. Item ids stay distinct and positive: if they are so in the table,
    they are so after any [create_item] request, whatever its outcome, and
    after [init_db]. *)
Theorem item_ids_stay_unique
    (item : CreateItem.t) (payload : gmap string jval) (now : Z)
    (table : list item_row) :
  NoDup (row_id <$> table) →
  Forall (λ r, 1 ≤ row_id r) table →
  (NoDup (row_id <$> snd (create_item item payload now table))
   ∧ Forall (λ r, 1 ≤ row_id r) (snd (create_item item payload now table)))
  ∧ (NoDup (row_id <$> init_db now table)
     ∧ Forall (λ r, 1 ≤ row_id r) (init_db now table)).
Proof.
  intros Hnodup Hpos. split.
  - destruct (create_item_table_cases item payload now table)
      as [->|(_ & _ & owner & ->)]; [done|].
    split.
    + rewrite fmap_app. apply NoDup_app. split_and!; [done| |apply NoDup_singleton].
      intros n Hin. cbn. rewrite list_elem_of_singleton. intros ->.
      apply list_elem_of_fmap in Hin as (r & Hid & Hr).
      pose proof (max_rowid_bound table) as Hbound.
      rewrite Forall_forall in Hbound. apply Hbound in Hr. lia.
    + apply Forall_app. split; [done|]. constructor; [|done]. cbn.
      pose proof (max_rowid_nonneg table). lia.
  - destruct table as [|r table].
    + rewrite init_db_seeded. split.
      * apply (bool_decide_unpack _). vm_compute. exact I.
      * apply (bool_decide_unpack _). vm_compute. exact I.
    + by rewrite init_db_nonempty.
Qed.

(** X6. Access levels stay valid: if every row carries one of the four
    level names, so does every row after any [create_item] request and
    after [init_db]; no request stores a row at an unknown level. *)
Theorem item_levels_stay_valid
    (item : CreateItem.t) (payload : gmap string jval) (now : Z)
    (table : list item_row) :
  Forall (λ r, row_access_level r ∈ ["public"; "user"; "admin"; "super_admin"]) table →
  Forall (λ r, row_access_level r ∈ ["public"; "user"; "admin"; "super_admin"])
    (snd (create_item item payload now table))
  ∧ Forall (λ r, row_access_level r ∈ ["public"; "user"; "admin"; "super_admin"])
      (init_db now table).
Proof.
  intros Hvalid. split.
  - destruct (create_item_table_cases item payload now table)
      as [->|(Hok & _ & owner & ->)]; [done|].
    apply Forall_app. split; [done|]. constructor; [|done]. cbn.
    by apply access_level_known.
  - destruct table as [|r table].
    + rewrite init_db_seeded. apply (bool_decide_unpack _). vm_compute. exact I.
    + by rewrite init_db_nonempty.
Qed.
(** ** Who sees what *)

Lemma dict_get_Ok_hashable (table : gmap string Z) (key : jval) (dflt n : Z) :
  dict_get table key dflt = Ok n → unhashable key = false.
Proof. by destruct key. Qed.

Lemma can_access_Ok_hashable (role : jval) (level : string) (b : bool) :
  can_access role level = Ok b → unhashable role = false.
Proof.
  intros Hacc. destruct (unhashable role) eqn:Hrole; [|done].
  by rewrite can_access_unhashable in Hacc.
Qed.

Lemma filter_sublist_impl {A} (P Q : A → Prop)
    `{!∀ x, Decision (P x)} `{!∀ x, Decision (Q x)} (l : list A) :
  (∀ x, P x → Q x) → filter P l `sublist_of` filter Q l.
Proof.
  intros Himpl. induction l as [|x l IH]; [constructor|].
  destruct (decide (P x)) as [HP|HP].
  - rewrite (filter_cons_True P) by done.
    rewrite (filter_cons_True Q) by auto. by constructor.
  - rewrite (filter_cons_False P) by done.
    destruct (decide (Q x)).
    + rewrite (filter_cons_True Q) by done. by constructor.
    + by rewrite (filter_cons_False Q).
Qed.

Lemma filter_all {A} (P : A → Prop) `{!∀ x, Decision (P x)} (l : list A) :
  (∀ x, P x) → filter P l = l.
Proof.
  intros HP. induction l as [|x l IH]; [done|].
  rewrite filter_cons_True by done. by rewrite IH.
Qed.

(** X7. A role of higher or equal rank is shown at least what a role of
    lower rank is shown: the lower listing is a subsequence of the higher
    one, the counts of accessible items are ordered accordingly and never
    exceed the total, and the total reported does not depend on the role. *)
Theorem listing_grows_with_rank
    (low high : gmap string jval) (table : list item_row) (n m : Z) :
  dict_get ROLE_HIERARCHY (get_user_role low) 0 = Ok n →
  dict_get ROLE_HIERARCHY (get_user_role high) 0 = Ok m →
  n ≤ m →
  ∃ below above : ItemsResponse.t,
    get_items low table = Ok below
    ∧ get_items high table = Ok above
    ∧ ItemsResponse.items below `sublist_of` ItemsResponse.items above
    ∧ ItemsResponse.total_accessible below ≤ ItemsResponse.total_accessible above
    ∧ ItemsResponse.total_accessible above ≤ ItemsResponse.total_items above
    ∧ ItemsResponse.total_items below = ItemsResponse.total_items above.
Proof.
  intros Hlow Hhigh Hrank.
  rewrite !get_items_hashable by by eapply dict_get_Ok_hashable.
  eexists _, _. split; [done|]. split; [done|]. cbn.
  assert (Hsub :
    filter (λ r, can_access (get_user_role low) (row_access_level r) = Ok true)
      (select_items table)
    `sublist_of`
    filter (λ r, can_access (get_user_role high) (row_access_level r) = Ok true)
      (select_items table)).
  { apply filter_sublist_impl. intros r.
    rewrite (can_access_rank _ _ n Hlow), (can_access_rank _ _ m Hhigh).
    rewrite !Ok_true_leb. lia. }
  split_and!; [done| | |done].
  - apply sublist_length in Hsub. lia.
  - pose proof (sublist_length _ _
      (sublist_filter
         (λ r, can_access (get_user_role high) (row_access_level r) = Ok true)
         (select_items table))).
    lia.
Qed.

(** X8. A super_admin is shown every stored item, whatever level name the
    rows carry: the listing is the whole newest-first listing and both
    counts equal the number of rows. *)
Theorem super_admin_sees_everything (payload : gmap string jval) (table : list item_row) :
  payload !! "role" = Some (JStr "super_admin") →
  ∃ resp : ItemsResponse.t,
    get_items payload table = Ok resp
    ∧ ItemsResponse.items resp = select_items table
    ∧ ItemsResponse.total_accessible resp = Z.of_nat (length table)
    ∧ ItemsResponse.total_items resp = Z.of_nat (length table).
Proof.
  intros Hrole.
  assert (get_user_role payload = JStr "super_admin") as Hsuper
    by (unfold get_user_role; by rewrite Hrole).
  rewrite get_items_hashable by by rewrite Hsuper.
  eexists. split; [done|]. cbn. rewrite Hsuper.
  assert (Hall :
    filter (λ r, can_access (JStr "super_admin") (row_access_level r) = Ok true)
      (select_items table) = select_items table).
  { apply filter_all. intros r. rewrite can_access_ranks, Ok_true_leb.
    pose proof (rank_of_level_range (row_access_level r)).
    unfold rank_of_role. rewrite ROLE_HIERARCHY_lookup.
    repeat case_decide; first [done | lia]. }
  rewrite Hall. split_and!; [done| |]; by rewrite select_items_perm.
Qed.

Lemma rank_of_level_zero (level : string) :
  rank_of_level level ≤ 0 ↔ level ∉ ["user"; "admin"; "super_admin"].
Proof.
  unfold rank_of_level. rewrite ACCESS_LEVELS_lookup.
  rewrite !not_elem_of_cons.
  repeat case_decide; subst;
    (split; [intros Hle | intros (Hu & Ha & Hs & _)]);
    first [ lia | done
          | split_and!; first [done | apply not_elem_of_nil] ].
Qed.

(** X9. A token whose role claim is missing, is null, a boolean or a
    number, or is a string other than user, admin and super_admin is served
    as a guest: it is shown exactly the rows whose level is none of user,
    admin and super_admin, that is the public rows and any row of
    unrecognised level. *)
Theorem guest_sees_only_unranked_levels (payload : gmap string jval) (table : list item_row) :
  unhashable (get_user_role payload) = false →
  (∀ s : string, get_user_role payload = JStr s → s ∉ ["user"; "admin"; "super_admin"]) →
  ∃ resp : ItemsResponse.t,
    get_items payload table = Ok resp
    ∧ ∀ r : item_row,
        r ∈ ItemsResponse.items resp
        ↔ r ∈ table ∧ row_access_level r ∉ ["user"; "admin"; "super_admin"].
Proof.
  intros Hhash Hguest.
  assert (Hzero : dict_get ROLE_HIERARCHY (get_user_role payload) 0 = Ok 0).
  { destruct (get_user_role payload) as [| | | |s| |] eqn:Hrole; try done.
    specialize (Hguest s eq_refl). rewrite rank_of_role_get.
    unfold rank_of_role. rewrite ROLE_HIERARCHY_lookup.
    rewrite !not_elem_of_cons in Hguest. destruct Hguest as (? & ? & ? & _).
    by repeat case_decide. }
  rewrite get_items_hashable by done. eexists. split; [done|]. cbn. intros r.
  rewrite list_elem_of_filter, select_items_perm.
  rewrite (can_access_rank _ _ 0 Hzero), Ok_true_leb, rank_of_level_zero.
  split; intros [? ?]; by split.
Qed.

(** ** Creating and then listing *)

Lemma route_create_item_ok_inv
    (token : jwt Sig) (item : CreateItem.t) (now : Z)
    (table table' : list item_row) (created : ItemCreated.t) :
  route_create_item token item now table = (Ok created, table') →
  ∃ payload : gmap string jval,
    verify_token token now = Ok payload
    ∧ can_access (get_user_role payload) (CreateItem.access_level item) = Ok true
    ∧ created = ItemCreated.Build "Item created" (max_rowid table + 1)
                  (default (JStr "anonymous") (payload !! "sub"))
                  (CreateItem.access_level item)
    ∧ table' = table ++ [ItemRow (max_rowid table + 1)
                           (CreateItem.title item) (CreateItem.description item)
                           (default (JStr "anonymous") (payload !! "sub"))
                           (CreateItem.access_level item) now].
Proof.
  destruct (verify_token token now) as [payload|e|x] eqn:Hauth;
    [|unfold route_create_item; rewrite Hauth; discriminate..].
  rewrite (route_create_item_verified _ _ _ payload) by done.
  intros Hrun. exists payload. split; [done|].
  pose proof (stored_owner_verified _ _ _ Hauth) as Hbind.
  destruct (decide (is_Some (ACCESS_LEVELS !! CreateItem.access_level item)))
    as [Hok|Hbad].
  - destruct (can_access_cases (get_user_role payload)
                (CreateItem.access_level item)) as [[[] Hacc]|[Hrole Hacc]].
    + rewrite (create_item_inserted _ _ _ _ _ Hok Hacc Hbind) in Hrun.
      by injection Hrun as <- <-.
    + rewrite create_item_forbidden in Hrun by done. discriminate.
    + rewrite create_item_unhashable in Hrun by done. discriminate.
  - rewrite create_item_invalid_level in Hrun by done. discriminate.
Qed.

(** In a newest-first listing, a row strictly newer than all the others
    comes first. *)
Lemma select_items_newest_head (table : list item_row) (x : item_row) :
  Forall (λ r, row_created_at r < row_created_at x) table →
  ∃ rest : list item_row, select_items (table ++ [x]) = x :: rest.
Proof.
  intros Holder.
  pose proof (select_items_newest_first (table ++ [x])) as Hsorted.
  pose proof (select_items_perm (table ++ [x])) as Hperm.
  destruct (select_items (table ++ [x])) as [|h rest].
  - symmetry in Hperm. apply Permutation_nil_r in Hperm.
    by destruct table.
  - exists rest. f_equal.
    destruct (decide (h = x)) as [|Hne]; [done|exfalso].
    assert (Hh : h ∈ table).
    { assert (h ∈ table ++ [x]) as Hin
        by (rewrite <-Hperm; apply list_elem_of_here).
      apply elem_of_app in Hin as [?|Hin]; [done|].
      by apply list_elem_of_singleton in Hin. }
    assert (Hx : x ∈ rest).
    { assert (x ∈ h :: rest) as Hin
        by (rewrite Hperm, elem_of_app, list_elem_of_singleton; by right).
      apply elem_of_cons in Hin as [?|?]; [by subst|done]. }
    rewrite Forall_forall in Holder. apply Holder in Hh.
    apply StronglySorted_inv in Hsorted as [_ Hhead].
    rewrite Forall_forall in Hhead. apply Hhead in Hx.
    unfold newer_or_equal in Hx. lia.
Qed.

(** X10. What a caller has just created, the same caller is shown: after a
    successful create request, listing with the same token (its role claim
    being one the server can write back) returns the new row, and the total
    has grown by one. *)
Theorem created_item_is_listed
    (token : jwt Sig) (item : CreateItem.t) (now : Z)
    (table table' : list item_row) (created : ItemCreated.t) :
  route_create_item token item now table = (Ok created, table') →
  renderable (get_user_role (jwt_claims token)) = true →
  ∃ resp : ItemsResponse.t,
    route_get_items token now table' = Ok resp
    ∧ ItemRow (ItemCreated.id created) (CreateItem.title item)
        (CreateItem.description item) (ItemCreated.owner created)
        (CreateItem.access_level item) now
      ∈ ItemsResponse.items resp
    ∧ ItemsResponse.total_items resp = Z.of_nat (length table) + 1.
Proof.
  intros (payload & Hauth & Hacc & -> & ->)%route_create_item_ok_inv Hrender.
  pose proof Hauth as (-> & _)%verify_token_Ok_inv%jwt_decode_Ok_inv.
  pose proof (can_access_Ok_hashable _ _ _ Hacc) as Hhash.
  rewrite (route_get_items_verified _ _ (jwt_claims token)) by done.
  rewrite get_items_hashable by done.
  eexists. split; [done|].
  cbn [ItemCreated.id ItemCreated.owner ItemsResponse.items
       ItemsResponse.total_items]. split.
  - rewrite list_elem_of_filter, select_items_perm.
    split; [done|]. rewrite elem_of_app, list_elem_of_singleton. by right.
  - rewrite select_items_perm, length_app. cbn. lia.
Qed.

(** X11. When every stored row is older than the request, the row a caller
    has just created is the first item of that caller's next listing (the
    role claim of the token being one the server can write back). *)
Theorem created_item_is_listed_first
    (token : jwt Sig) (item : CreateItem.t) (now : Z)
    (table table' : list item_row) (created : ItemCreated.t) :
  Forall (λ r, row_created_at r < now) table →
  route_create_item token item now table = (Ok created, table') →
  renderable (get_user_role (jwt_claims token)) = true →
  ∃ (resp : ItemsResponse.t) (rest : list item_row),
    route_get_items token now table' = Ok resp
    ∧ ItemsResponse.items resp
      = ItemRow (ItemCreated.id created) (CreateItem.title item)
          (CreateItem.description item) (ItemCreated.owner created)
          (CreateItem.access_level item) now :: rest.
Proof.
  intros Holder (payload & Hauth & Hacc & -> & ->)%route_create_item_ok_inv
    Hrender.
  pose proof Hauth as (-> & _)%verify_token_Ok_inv%jwt_decode_Ok_inv.
  pose proof (can_access_Ok_hashable _ _ _ Hacc) as Hhash.
  rewrite (route_get_items_verified _ _ (jwt_claims token)) by done.
  rewrite get_items_hashable by done.
  cbn [ItemCreated.id ItemCreated.owner].
  destruct (select_items_newest_head table
              (ItemRow (max_rowid table + 1) (CreateItem.title item)
                 (CreateItem.description item)
                 (default (JStr "anonymous") (jwt_claims token !! "sub"))
                 (CreateItem.access_level item) now) Holder) as [rest Hhead].
  eexists _, _. split; [done|]. cbn [ItemsResponse.items].
  rewrite Hhead. by rewrite filter_cons_True.
Qed.
(** ** Usernames in normal form *)

Lemma py_isspace_lower_char (c : ascii) : py_isspace (lower_char c) = py_isspace c.
Proof. by destruct c as [[] [] [] [] [] [] [] []]. Qed.

Lemma lower_char_idem (c : ascii) : lower_char (lower_char c) = lower_char c.
Proof. by destruct c as [[] [] [] [] [] [] [] []]. Qed.

Lemma lower_idem (s : string) : lower (lower s) = lower s.
Proof. induction s as [|c s IH]; [done|]. cbn. by rewrite lower_char_idem, IH. Qed.

Lemma py_not_lower (s : string) : py_not (lower s) = py_not s.
Proof. by destruct s. Qed.

Lemma lstrip_lower (s : string) : lstrip (lower s) = lower (lstrip s).
Proof.
  induction s as [|c s IH]; [done|]. cbn.
  rewrite py_isspace_lower_char. by destruct (py_isspace c).
Qed.

Lemma rstrip_lower (s : string) : rstrip (lower s) = lower (rstrip s).
Proof.
  induction s as [|c s IH]; [done|]. cbn.
  rewrite IH, py_not_lower, py_isspace_lower_char.
  by destruct (py_not (rstrip s) && py_isspace c).
Qed.

Lemma strip_lower (s : string) : strip (lower s) = lower (strip s).
Proof. unfold strip. by rewrite lstrip_lower, rstrip_lower. Qed.

Lemma rstrip_idem (s : string) : rstrip (rstrip s) = rstrip s.
Proof.
  induction s as [|c s IH]; [done|]. cbn.
  destruct (py_not (rstrip s) && py_isspace c) eqn:Hdrop; [done|].
  cbn. by rewrite IH, Hdrop.
Qed.

Lemma lstrip_head (s : string) :
  lstrip s = "" ∨ ∃ c t, lstrip s = String c t ∧ py_isspace c = false.
Proof.
  induction s as [|c s IH]; [by left|]. cbn.
  destruct (py_isspace c) eqn:Hc; [done|]. right. by exists c, s.
Qed.

Lemma lstrip_rstrip_lstrip (s : string) : lstrip (rstrip (lstrip s)) = rstrip (lstrip s).
Proof.
  destruct (lstrip_head s) as [->|(c & t & -> & Hc)]; [done|].
  cbn. rewrite Hc, andb_false_r. cbn. by rewrite Hc.
Qed.

Lemma strip_idem (s : string) : strip (strip s) = strip s.
Proof. unfold strip. by rewrite lstrip_rstrip_lstrip, rstrip_idem. Qed.

Lemma normalise_idem (s : string) : lower (strip (lower (strip s))) = lower (strip s).
Proof. by rewrite strip_lower, strip_idem, lower_idem. Qed.

(** X12. Usernames are matched in normal form: stripping and lowercasing
    a username a second time changes nothing, so a login under the
    normalised spelling of a username gets the very same answer as a login
    under the spelling as typed. *)
Theorem login_by_normalised_username
    (now : Z) (username password : string) (users : gmap string (user_row Hash)) :
  lower (strip (lower (strip username))) = lower (strip username)
  ∧ login now (UserLogin.Build (lower (strip username)) password) users
    = login now (UserLogin.Build username password) users.
Proof.
  split; [apply normalise_idem|].
  unfold login. cbn [UserLogin.username UserLogin.password].
  by rewrite normalise_idem.
Qed.

(** ** Registration and the users table *)

Lemma register_ok_inv (salt : Salt) (user_data : UserRegister.t)
    (users users' : gmap string (user_row Hash)) (body : Registered.t) :
  register_user salt user_data users = (Ok body, users') →
  UserRegister.username user_data ≠ ""
  ∧ UserRegister.password user_data ≠ ""
  ∧ (String.length (UserRegister.password user_data) ≤ 72)%nat
  ∧ UserRegister.role user_data ∈ VALID_ROLES
  ∧ users !! lower (strip (UserRegister.username user_data)) = None
  ∧ users' = <[lower (strip (UserRegister.username user_data)) :=
                 UserRow (hashpw (UserRegister.password user_data) salt)
                   (UserRegister.role user_data)]> users.
Proof.
  unfold register_user, bcrypt_hashpw. cbv zeta.
  destruct (py_not (UserRegister.username user_data)) eqn:Hu; [discriminate|].
  destruct (py_not (UserRegister.password user_data)) eqn:Hp; [discriminate|].
  cbn [orb].
  destruct (72 <? String.length (UserRegister.password user_data))%nat eqn:Hlen;
    cbn [step]; [discriminate|].
  destruct (decide (UserRegister.role user_data ∈ VALID_ROLES)) as [Hrole|Hrole].
  - rewrite bool_decide_eq_true_2 by done. cbn [negb].
    destruct (users !! lower (strip (UserRegister.username user_data))) eqn:Hfree;
      [discriminate|].
    intros [= _ <-]. split_and!; try done.
    + rewrite <-py_not_empty. congruence.
    + rewrite <-py_not_empty. congruence.
    + by apply Nat.ltb_ge.
  - rewrite bool_decide_eq_false_2 by done. discriminate.
Qed.

(** What [register_user] leaves in the users table: the table as it was
    when it does not succeed, the table with the new row when it does. *)
Lemma register_table_cases (salt : Salt) (user_data : UserRegister.t)
    (users : gmap string (user_row Hash)) :
  (snd (register_user salt user_data users) = users
   ∧ ∀ body, fst (register_user salt user_data users) ≠ Ok body)
  ∨ (∃ body,
       register_user salt user_data users
       = (Ok body,
          <[lower (strip (UserRegister.username user_data)) :=
              UserRow (hashpw (UserRegister.password user_data) salt)
                (UserRegister.role user_data)]> users)
       ∧ UserRegister.role user_data ∈ VALID_ROLES
       ∧ users !! lower (strip (UserRegister.username user_data)) = None).
Proof.
  destruct (register_user salt user_data users) as [[body|e|x] users'] eqn:Hrun.
  - right. exists body.
    apply register_ok_inv in Hrun as (_ & _ & _ & ? & ? & ->). done.
  - left. split; [|done]. revert Hrun. unfold register_user. cbv zeta.
    destruct (py_not _ || py_not _); [by intros [= _ <-]|].
    destruct (bcrypt_hashpw _ _); cbn [step]; [|by intros [= _ <-]..].
    destruct (negb _); [by intros [= _ <-]|].
    destruct (users !! _); [by intros [= _ <-]|discriminate].
  - left. split; [|done]. revert Hrun. unfold register_user. cbv zeta.
    destruct (py_not _ || py_not _); [by intros [= _ <-]|].
    destruct (bcrypt_hashpw _ _); cbn [step]; [|by intros [= _ <-]..].
    destruct (negb _); [by intros [= _ <-]|].
    destruct (users !! _); [by intros [= _ <-]|discriminate].
Qed.

(** X13. Registration never touches an existing account: every username
    already in the table keeps its password hash and role whatever the
    outcome, and a registration that is refused or raises leaves the table
    exactly as it was. *)
Theorem register_keeps_existing_users
    (salt : Salt) (user_data : UserRegister.t) (users : gmap string (user_row Hash)) :
  (∀ (name : string) (row : user_row Hash),
     users !! name = Some row →
     snd (register_user salt user_data users) !! name = Some row)
  ∧ (∀ e : http_exception,
       fst (register_user salt user_data users) = Raise e →
       snd (register_user salt user_data users) = users)
  ∧ (∀ x : py_exception,
       fst (register_user salt user_data users) = Except x →
       snd (register_user salt user_data users) = users).
Proof.
  destruct (register_table_cases salt user_data users)
    as [[-> _]|(body & -> & _ & Hfree)]; cbn [fst snd].
  - done.
  - split_and!; [|discriminate..]. intros name row Hrow.
    rewrite lookup_insert_ne; [done|]. congruence.
Qed.

(** X14. A username is taken once it is registered: after a successful
    registration, a second well-formed registration whose username has the
    same normal form, with any password bcrypt takes (at most 72 bytes),
    any valid role and any salt, is refused with 400 "Username already
    exists" and changes nothing. *)
Theorem duplicate_username_rejected
    (salt salt' : Salt) (first second : UserRegister.t)
    (users users' : gmap string (user_row Hash)) (body : Registered.t) :
  register_user salt first users = (Ok body, users') →
  lower (strip (UserRegister.username second))
  = lower (strip (UserRegister.username first)) →
  UserRegister.username second ≠ "" →
  UserRegister.password second ≠ "" →
  (String.length (UserRegister.password second) ≤ 72)%nat →
  UserRegister.role second ∈ VALID_ROLES →
  register_user salt' second users'
  = (Raise (HTTPException 400 "Username already exists"), users').
Proof.
  intros (_ & _ & _ & _ & _ & ->)%register_ok_inv Hsame Hu Hp Hshort Hrole.
  unfold register_user. cbv zeta.
  destruct (py_not (UserRegister.username second)) eqn:Hnu;
    [by apply py_not_empty in Hnu|].
  destruct (py_not (UserRegister.password second)) eqn:Hnp;
    [by apply py_not_empty in Hnp|].
  cbn [orb]. rewrite bcrypt_hashpw_short by done. cbn [step].
  rewrite bool_decide_eq_true_2 by done. cbn [negb].
  by rewrite Hsame, lookup_insert_eq.
Qed.

(** X15. Register, then log in: provided bcrypt accepts a password
    against its own hash, a user who has just registered logs in
    with the same username and password and receives a token for the
    normalised username and the registered role; a password the checker
    rejects against that hash is answered with 401. *)
Theorem registered_user_can_log_in
    (salt : Salt) (user_data : UserRegister.t)
    (users users' : gmap string (user_row Hash)) (body : Registered.t) (T : Z) :
  register_user salt user_data users = (Ok body, users') →
  bcrypt_checkpw (UserRegister.password user_data)
    (hashpw (UserRegister.password user_data) salt) = Ok true →
  login T (UserLogin.Build (UserRegister.username user_data)
             (UserRegister.password user_data)) users'
  = Ok (TokenResponse.Build
          (jwt_encode
             (login_payload (lower (strip (UserRegister.username user_data)))
                (UserRegister.role user_data) T)
             JWT_SECRET JWT_ALGORITHM)
          "Bearer" 3600)
  ∧ (∀ wrong : string,
       bcrypt_checkpw wrong (hashpw (UserRegister.password user_data) salt)
       = Ok false →
       login T (UserLogin.Build (UserRegister.username user_data) wrong) users'
       = Raise (HTTPException 401 "Invalid username or password")).
Proof.
  intros (_ & _ & _ & _ & _ & ->)%register_ok_inv Hcheck.
  unfold login. cbn [UserLogin.username UserLogin.password].
  rewrite lookup_insert_eq. cbn [password_hash user_role].
  split; [by rewrite Hcheck|]. by intros wrong ->.
Qed.

(** X16. Only registrable roles are ever stored: if every account in the
    table has one of the roles user, admin and super_admin, the same holds
    after any registration request. *)
Theorem stored_roles_stay_valid
    (salt : Salt) (user_data : UserRegister.t) (users : gmap string (user_row Hash)) :
  map_Forall (λ _ row, user_role row ∈ ["user"; "admin"; "super_admin"]) users →
  map_Forall (λ _ row, user_role row ∈ ["user"; "admin"; "super_admin"])
    (snd (register_user salt user_data users)).
Proof.
  intros Hvalid.
  destruct (register_table_cases salt user_data users)
    as [[-> _]|(body & -> & Hrole & _)]; cbn [snd]; [done|].
  by apply map_Forall_insert_2.
Qed.

(** X17. The two servers agree on stored roles: when every account has a
    registrable role, the token of any successful login carries a role of
    rank at least 1, so the resource server lets its holder read and create
    public and user items. *)
Theorem logged_in_user_reaches_user_level
    (T : Z) (user_data : UserLogin.t) (users : gmap string (user_row Hash))
    (resp : TokenResponse.t Sig) :
  map_Forall (λ _ row, user_role row ∈ ["user"; "admin"; "super_admin"]) users →
  login T user_data users = Ok resp →
  ∃ role : string,
    jwt_claims (TokenResponse.access_token resp) !! "role" = Some (JStr role)
    ∧ role ∈ ["user"; "admin"; "super_admin"]
    ∧ 1 ≤ rank_of_role role
    ∧ can_access (get_user_role (jwt_claims (TokenResponse.access_token resp)))
        "public" = Ok true
    ∧ can_access (get_user_role (jwt_claims (TokenResponse.access_token resp)))
        "user" = Ok true.
Proof.
  intros Hvalid (row & Hrow & _ & ->)%login_ok_inv.
  apply Hvalid in Hrow. exists (user_role row).
  cbn [TokenResponse.access_token jwt_encode jwt_claims].
  destruct (login_payload_claims
              (lower (strip (UserLogin.username user_data))) (user_role row) T)
    as (_ & Hrole & _).
  assert (Hrank : 1 ≤ rank_of_role (user_role row)).
  { unfold rank_of_role. rewrite ROLE_HIERARCHY_lookup.
    rewrite !elem_of_cons, elem_of_nil in Hrow.
    destruct Hrow as [->|[->|[->|[]]]]; repeat case_decide; first [done | lia]. }
  unfold get_user_role. rewrite Hrole. cbn [default from_option id].
  rewrite !can_access_ranks, !Ok_true_leb.
  unfold rank_of_level. rewrite !ACCESS_LEVELS_lookup.
  split_and!; [done|done|done| |]; repeat case_decide; first [done | lia].
Qed.

(** X18. The roles the auth server advertises on its two information
    routes are the same list, each has a description and nothing else has
    one, each is known to the resource server with rank at least 1, none is
    ever refused by registration as an invalid role, and guest is not among
    them. *)
Theorem advertised_roles_are_registrable :
  Root.available_roles root = Roles.available_roles get_available_roles
  ∧ (∀ r : string,
       r ∈ Roles.available_roles get_available_roles
       ↔ is_Some (Roles.role_descriptions get_available_roles !! r))
  ∧ (∀ r : string,
       r ∈ Roles.available_roles get_available_roles → 1 ≤ rank_of_role r)
  ∧ (∀ (salt : Salt) (user_data : UserRegister.t)
       (users : gmap string (user_row Hash)),
       UserRegister.role user_data ∈ Roles.available_roles get_available_roles →
       fst (register_user salt user_data users)
       ≠ Raise (HTTPException 400
                  "Invalid role. Available roles: user, admin, super_admin"))
  ∧ "guest" ∉ Roles.available_roles get_available_roles.
Proof.
  cbn [root get_available_roles Root.available_roles Roles.available_roles
       Roles.role_descriptions]. unfold VALID_ROLES.
  split_and!.
  - done.
  - intros r. rewrite !lookup_insert, lookup_empty.
    rewrite !elem_of_cons, elem_of_nil. table_cases.
  - intros r. rewrite !elem_of_cons, elem_of_nil.
    unfold rank_of_role. rewrite ROLE_HIERARCHY_lookup.
    intros [->|[->|[->|[]]]]; repeat case_decide; first [done | lia].
  - intros salt user_data users Hrole.
    unfold register_user, bcrypt_hashpw. cbv zeta.
    destruct (py_not _ || py_not _); [cbn; discriminate|].
    destruct (72 <? String.length (UserRegister.password user_data))%nat;
      cbn [step]; [cbn; discriminate|].
    rewrite bool_decide_eq_true_2 by done. cbn [negb].
    destruct (users !! _); cbn; discriminate.
  - rewrite !not_elem_of_cons. split_and!; try done. apply not_elem_of_nil.
Qed.
(** ** One identity across the two servers *)

(** X19. The identity a login hands out is the one the resource server
    sees: while the token has not expired, the profile route returns the
    normalised username, and the listing route reports that username and
    the role stored for it in the users table. *)
Theorem logged_in_identity_is_served
    (T now : Z) (user_data : UserLogin.t) (users : gmap string (user_row Hash))
    (resp : TokenResponse.t Sig) :
  login T user_data users = Ok resp →
  now < T + 3600 →
  route_get_profile (TokenResponse.access_token resp) now
  = Ok (Profile.Build (Some (JStr (lower (strip (UserLogin.username user_data)))))
          "This is your profile")
  ∧ ∃ row : user_row Hash,
      users !! lower (strip (UserLogin.username user_data)) = Some row
      ∧ ∀ table : list item_row,
          ∃ listing : ItemsResponse.t,
            route_get_items (TokenResponse.access_token resp) now table = Ok listing
            ∧ ItemsResponse.user listing
              = JStr (lower (strip (UserLogin.username user_data)))
            ∧ ItemsResponse.role listing = JStr (user_role row).
Proof.
  intros (row & Hrow & _ & ->)%login_ok_inv Hnow.
  cbn [TokenResponse.access_token].
  assert (Hauth :
    verify_token
      (jwt_encode (login_payload (lower (strip (UserLogin.username user_data)))
                     (user_role row) T) JWT_SECRET JWT_ALGORITHM) now
    = Ok (login_payload (lower (strip (UserLogin.username user_data)))
            (user_role row) T))
    by by rewrite verify_login_token, expired_before.
  destruct (login_payload_claims
              (lower (strip (UserLogin.username user_data))) (user_role row) T)
    as (Hsub & Hrole & _).
  assert (Hget : get_user_role
                   (login_payload (lower (strip (UserLogin.username user_data)))
                      (user_role row) T) = JStr (user_role row))
    by (unfold get_user_role; by rewrite Hrole).
  split.
  - rewrite (route_get_profile_verified _ _ _ Hauth).
    unfold get_profile. by rewrite Hsub.
  - exists row. split; [done|]. intros table.
    rewrite (route_get_items_verified _ _ _ _ Hauth) by by rewrite Hget.
    rewrite get_items_hashable by by rewrite Hget.
    eexists. split; [done|]. cbn. by rewrite Hsub, Hget.
Qed.
End Services.

(** ** The services on concrete requests *)

(** The scenario of a registered user: bob registers, logs in, lists the
    seeded table and sees the ten public and user items out of eighteen,
    may not create an admin item, and may create a user item. *)
Example bob_registers_and_logs_in :
  let users := snd (register_user plain_hashpw 7%nat
                      (UserRegister.Build "Bob " "pw1" "user") ∅) in
  login ideal_sign plain_checkpw "k" 1000 (UserLogin.Build "bob" "pw1") users
  = Ok (TokenResponse.Build bob_token "Bearer" 3600).
Proof. vm_compute. reflexivity. Qed.

Example bob_lists_seeded_items :
  match route_get_items ideal_sign no_numeral true "k" bob_token 1000 (init_db 0 []) with
  | Ok resp =>
      ItemsResponse.user resp = JStr "bob"
      ∧ ItemsResponse.total_accessible resp = 10
      ∧ ItemsResponse.total_items resp = 18
      ∧ row_id <$> ItemsResponse.items resp = [1; 2; 3; 4; 5; 6; 7; 8; 9; 10]
  | _ => False
  end.
Proof. vm_compute. repeat split. Qed.

Example bob_may_not_create_admin_item :
  route_create_item ideal_sign no_numeral no_real_text true "k" bob_token
    (CreateItem.Build "Keys" "" "admin") 1000 (init_db 0 [])
  = (Raise (HTTPException 403 "Insufficient permissions to create admin items"),
     init_db 0 []).
Proof. vm_compute. reflexivity. Qed.

Example bob_token_is_refused_by_another_key :
  verify_token ideal_sign no_numeral true "other" bob_token 1000
  = Raise (HTTPException 401 "Invalid token").
Proof. vm_compute. reflexivity. Qed.

Lemma can_access_iff_rank_ge_witness :
  ROLE_HIERARCHY !! "nobody" = None
  ∧ rank_of_role "nobody" = 0
  ∧ can_access (JStr "admin") "user" = Ok true.
Proof.
  destruct can_access_iff_rank_ge as (Hiff & Hrole & _).
  split; [by vm_compute|].
  split; [apply Hrole; by vm_compute|].
  apply Hiff. vm_compute. discriminate.
Defined.

Lemma can_access_monotone_witness :
  rank_of_role "admin" >= rank_of_role "user"
  ∧ can_access (JStr "user") "user" = Ok true
  ∧ can_access (JStr "admin") "user" = Ok true.
Proof.
  assert (H1 : rank_of_role "admin" >= rank_of_role "user")
    by (vm_compute; discriminate).
  assert (H2 : can_access (JStr "user") "user" = Ok true)
    by (vm_compute; reflexivity).
  exact (conj H1 (conj H2 (can_access_monotone "admin" "user" "user" H1 H2))).
Defined.

Lemma rank_tables_consistent_witness :
  ROLE_HIERARCHY !! "admin" = Some 2
  ∧ ACCESS_LEVELS !! "admin" = Some 2
  ∧ 2 = 2.
Proof.
  assert (H1 : ROLE_HIERARCHY !! "admin" = Some 2) by (vm_compute; reflexivity).
  assert (H2 : ACCESS_LEVELS !! "admin" = Some 2) by (vm_compute; reflexivity).
  exact (conj H1 (conj H2 (proj1 rank_tables_consistent "admin" 2 2 H1 H2))).
Defined.

Lemma create_item_outcome_witness :
  verify_token ideal_sign no_numeral true "k" bob_token 1000 = Ok bob_claims
  ∧ ∃ (new_id : Z) (owner : jval),
      route_create_item ideal_sign no_numeral no_real_text true "k" bob_token
        (CreateItem.Build "Note" "Minutes" "user") 1000 (init_db 0 [])
      = (Ok (ItemCreated.Build "Item created" new_id owner "user"),
         init_db 0 [] ++ [ItemRow new_id "Note" "Minutes" owner "user" 1000])
      ∧ owner = JStr "bob".
Proof.
  assert (Hauth : verify_token ideal_sign no_numeral true "k" bob_token 1000
                  = Ok bob_claims) by (vm_compute; reflexivity).
  split; [exact Hauth|].
  destruct (create_item_outcome ideal_sign no_numeral no_real_text true "k" bob_token
              (CreateItem.Build "Note" "Minutes" "user") 1000 bob_claims
              (init_db 0 []) Hauth) as (_ & _ & Hins).
  destruct Hins as (new_id & owner & Hrun & Howner & _).
  - apply (bool_decide_unpack _). vm_compute. exact I.
  - vm_compute. reflexivity.
  - exists new_id, owner. split; [exact Hrun|].
    rewrite Howner. vm_compute. reflexivity.
Defined.

Lemma login_token_round_trip_witness :
  ∃ token : jwt (string * string * (string * gmap string jval)),
    login ideal_sign plain_checkpw "k" 1000 (UserLogin.Build " Alice " "pw") alice_users
    = Ok (TokenResponse.Build token "Bearer" 3600)
    ∧ verify_token ideal_sign no_numeral true "k" token 1000 = Ok (jwt_claims token)
    ∧ jwt_claims token !! "sub" = Some (JStr "alice")
    ∧ jwt_claims token !! "role" = Some (JStr "user")
    ∧ verify_token ideal_sign no_numeral true "k" token (1000 + 3600 + 1)
      = Raise (HTTPException 401 "Invalid token").
Proof.
  destruct (login_token_round_trip ideal_sign no_numeral plain_checkpw true "k"
              1000 (UserLogin.Build " Alice " "pw") alice_users "alice"
              (UserRow (plain_hashpw "pw" 7%nat) "user"))
    as (token & Hrun & _ & _ & Hnow & Hsub & Hrole & _ & Hlate).
  - vm_compute. reflexivity.
  - vm_compute. reflexivity.
  - vm_compute. reflexivity.
  - exists token. exact (conj Hrun (conj Hnow (conj Hsub (conj Hrole Hlate)))).
Defined.

(** C7, as the specification words it, fails on the code: "guest" is in the
    role set of the specification, yet registering with it is refused as an
    invalid role. *)
Lemma register_guest_refused :
  fst (register_user plain_hashpw 7%nat (UserRegister.Build "bob" "pw" "guest") ∅)
  = Raise (HTTPException 400 "Invalid role. Available roles: user, admin, super_admin")
  ∧ ¬ (∀ role : string,
         fst (register_user plain_hashpw 7%nat (UserRegister.Build "bob" "pw" role) ∅)
         = Raise (HTTPException 400
                    "Invalid role. Available roles: user, admin, super_admin")
         ↔ role ∉ ["guest"; "user"; "admin"; "super_admin"]).
Proof.
  assert (Hrefused :
    fst (register_user plain_hashpw 7%nat (UserRegister.Build "bob" "pw" "guest") ∅)
    = Raise (HTTPException 400 "Invalid role. Available roles: user, admin, super_admin"))
    by (vm_compute; reflexivity).
  split; [exact Hrefused|].
  intros Hclaim. apply (proj1 (Hclaim "guest") Hrefused). apply list_elem_of_here.
Qed.

(** C8 fails on the code: a username of three spaces passes the input test,
    is stripped to the empty string, and a row is stored under it. *)
Lemma register_blank_username_accepted :
  register_user plain_hashpw 7%nat (UserRegister.Build "   " "pw" "user") ∅
  = (Ok (Registered.Build "User '' registered successfully"),
     {[ "" := UserRow (plain_hashpw "pw" 7%nat) "user" ]}).
Proof. vm_compute. reflexivity. Qed.

(** ** The further properties on concrete requests *)

Lemma login_token_valid_until_expiry_witness :
  login ideal_sign plain_checkpw "k" 1000 (UserLogin.Build "alice" "pw") alice_users
  = Ok (TokenResponse.Build
          (jwt_encode ideal_sign (login_payload "alice" "user" 1000) "k" "HS256")
          "Bearer" 3600)
  ∧ verify_token ideal_sign no_numeral true "k"
      (jwt_encode ideal_sign (login_payload "alice" "user" 1000) "k" "HS256") 4599
    = Ok (login_payload "alice" "user" 1000)
  ∧ verify_token ideal_sign no_numeral true "k"
      (jwt_encode ideal_sign (login_payload "alice" "user" 1000) "k" "HS256") 4601
    = Raise (HTTPException 401 "Invalid token").
Proof.
  assert (Hlogin :
    login ideal_sign plain_checkpw "k" 1000 (UserLogin.Build "alice" "pw") alice_users
    = Ok (TokenResponse.Build
            (jwt_encode ideal_sign (login_payload "alice" "user" 1000) "k" "HS256")
            "Bearer" 3600)) by (vm_compute; reflexivity).
  split; [exact Hlogin|].
  destruct (login_token_valid_until_expiry ideal_sign no_numeral plain_checkpw true
              "k" 1000 (UserLogin.Build "alice" "pw") alice_users _ Hlogin)
    as (_ & Hbefore & Hafter).
  split; [apply (Hbefore 4599)|apply (Hafter 4601)]; lia.
Defined.

Lemma item_ids_stay_unique_witness :
  NoDup (row_id <$> init_db 0 [])
  ∧ Forall (λ r, 1 ≤ row_id r) (init_db 0 [])
  ∧ NoDup (row_id <$> snd (create_item no_real_text (CreateItem.Build "Note" "Minutes" "user")
                             bob_claims 1000 (init_db 0 []))).
Proof.
  assert (H1 : NoDup (row_id <$> init_db 0 []))
    by (apply (bool_decide_unpack _); vm_compute; exact I).
  assert (H2 : Forall (λ r, 1 ≤ row_id r) (init_db 0 []))
    by (apply (bool_decide_unpack _); vm_compute; exact I).
  exact (conj H1 (conj H2 (proj1 (proj1
    (item_ids_stay_unique no_real_text (CreateItem.Build "Note" "Minutes" "user") bob_claims
       1000 (init_db 0 []) H1 H2))))).
Defined.

Lemma item_levels_stay_valid_witness :
  Forall (λ r, row_access_level r ∈ ["public"; "user"; "admin"; "super_admin"])
    (init_db 0 [])
  ∧ Forall (λ r, row_access_level r ∈ ["public"; "user"; "admin"; "super_admin"])
      (snd (create_item no_real_text (CreateItem.Build "Note" "Minutes" "user")
              bob_claims 1000 (init_db 0 []))).
Proof.
  assert (H1 : Forall (λ r, row_access_level r
                            ∈ ["public"; "user"; "admin"; "super_admin"])
                 (init_db 0 []))
    by (apply (bool_decide_unpack _); vm_compute; exact I).
  exact (conj H1 (proj1
    (item_levels_stay_valid no_real_text (CreateItem.Build "Note" "Minutes" "user") bob_claims
       1000 (init_db 0 []) H1))).
Defined.

Lemma created_item_is_listed_witness :
  route_create_item ideal_sign no_numeral no_real_text true "k" bob_token
    (CreateItem.Build "Note" "Minutes" "user") 1000 (init_db 0 [])
  = (Ok (ItemCreated.Build "Item created" 19 (JStr "bob") "user"),
     init_db 0 [] ++ [ItemRow 19 "Note" "Minutes" (JStr "bob") "user" 1000])
  ∧ ∃ resp : ItemsResponse.t,
      route_get_items ideal_sign no_numeral true "k" bob_token 1000
        (init_db 0 [] ++ [ItemRow 19 "Note" "Minutes" (JStr "bob") "user" 1000])
      = Ok resp
      ∧ ItemRow 19 "Note" "Minutes" (JStr "bob") "user" 1000
        ∈ ItemsResponse.items resp
      ∧ ItemsResponse.total_items resp = Z.of_nat (length (init_db 0 [])) + 1.
Proof.
  assert (Hcreate :
    route_create_item ideal_sign no_numeral no_real_text true "k" bob_token
      (CreateItem.Build "Note" "Minutes" "user") 1000 (init_db 0 [])
    = (Ok (ItemCreated.Build "Item created" 19 (JStr "bob") "user"),
       init_db 0 [] ++ [ItemRow 19 "Note" "Minutes" (JStr "bob") "user" 1000]))
    by (vm_compute; reflexivity).
  split; [exact Hcreate|].
  exact (created_item_is_listed ideal_sign no_numeral no_real_text true "k" bob_token
           (CreateItem.Build "Note" "Minutes" "user") 1000 (init_db 0 []) _ _ Hcreate
           eq_refl).
Defined.

Lemma created_item_is_listed_first_witness :
  Forall (λ r, row_created_at r < 1000) (init_db 0 [])
  ∧ ∃ (resp : ItemsResponse.t) (rest : list item_row),
      route_get_items ideal_sign no_numeral true "k" bob_token 1000
        (init_db 0 [] ++ [ItemRow 19 "Note" "Minutes" (JStr "bob") "user" 1000])
      = Ok resp
      ∧ ItemsResponse.items resp
        = ItemRow 19 "Note" "Minutes" (JStr "bob") "user" 1000 :: rest.
Proof.
  assert (Holder : Forall (λ r, row_created_at r < 1000) (init_db 0 []))
    by (apply (bool_decide_unpack _); vm_compute; exact I).
  assert (Hcreate :
    route_create_item ideal_sign no_numeral no_real_text true "k" bob_token
      (CreateItem.Build "Note" "Minutes" "user") 1000 (init_db 0 [])
    = (Ok (ItemCreated.Build "Item created" 19 (JStr "bob") "user"),
       init_db 0 [] ++ [ItemRow 19 "Note" "Minutes" (JStr "bob") "user" 1000]))
    by (vm_compute; reflexivity).
  split; [exact Holder|].
  exact (created_item_is_listed_first ideal_sign no_numeral no_real_text true "k" bob_token
           (CreateItem.Build "Note" "Minutes" "user") 1000 (init_db 0 []) _ _
           Holder Hcreate eq_refl).
Defined.

Lemma stored_roles_stay_valid_witness :
  map_Forall (λ _ row, user_role row ∈ ["user"; "admin"; "super_admin"]) alice_users
  ∧ snd (register_user plain_hashpw 9%nat
           (UserRegister.Build "Dave" "pw" "admin") alice_users) !! "dave"
    = Some (UserRow (plain_hashpw "pw" 9%nat) "admin")
  ∧ "admin" ∈ ["user"; "admin"; "super_admin"].
Proof.
  assert (Hvalid : map_Forall
            (λ _ (row : user_row (nat * string)),
               user_role row ∈ ["user"; "admin"; "super_admin"]) alice_users).
  { apply map_Forall_singleton. apply (bool_decide_unpack _). vm_compute. exact I. }
  assert (Hdave : snd (register_user plain_hashpw 9%nat
                         (UserRegister.Build "Dave" "pw" "admin") alice_users)
                  !! "dave"
                  = Some (UserRow (plain_hashpw "pw" 9%nat) "admin"))
    by (vm_compute; reflexivity).
  split; [exact Hvalid|]. split; [exact Hdave|].
  exact (stored_roles_stay_valid plain_hashpw 9%nat
           (UserRegister.Build "Dave" "pw" "admin") alice_users Hvalid
           "dave" _ Hdave).
Defined.

Lemma logged_in_user_reaches_user_level_witness :
  map_Forall (λ _ row, user_role row ∈ ["user"; "admin"; "super_admin"]) alice_users
  ∧ ∃ role : string,
      login_payload "alice" "user" 1000 !! "role" = Some (JStr role)
      ∧ 1 ≤ rank_of_role role.
Proof.
  assert (Hvalid : map_Forall
            (λ _ (row : user_row (nat * string)),
               user_role row ∈ ["user"; "admin"; "super_admin"]) alice_users).
  { apply map_Forall_singleton. apply (bool_decide_unpack _). vm_compute. exact I. }
  assert (Hlogin :
    login ideal_sign plain_checkpw "k" 1000 (UserLogin.Build "alice" "pw") alice_users
    = Ok (TokenResponse.Build
            (jwt_encode ideal_sign (login_payload "alice" "user" 1000) "k" "HS256")
            "Bearer" 3600)) by (vm_compute; reflexivity).
  split; [exact Hvalid|].
  destruct (logged_in_user_reaches_user_level ideal_sign plain_checkpw "k" 1000
              (UserLogin.Build "alice" "pw") alice_users _ Hvalid Hlogin)
    as (role & Hrole & _ & Hrank & _).
  exists role. split; [exact Hrole|exact Hrank].
Defined.

Lemma logged_in_identity_is_served_witness :
  login ideal_sign plain_checkpw "k" 1000 (UserLogin.Build " Alice" "pw") alice_users
  = Ok (TokenResponse.Build
          (jwt_encode ideal_sign (login_payload "alice" "user" 1000) "k" "HS256")
          "Bearer" 3600)
  ∧ route_get_profile ideal_sign no_numeral true "k"
      (jwt_encode ideal_sign (login_payload "alice" "user" 1000) "k" "HS256") 2000
    = Ok (Profile.Build (Some (JStr (lower (strip " Alice")))) "This is your profile").
Proof.
  assert (Hlogin :
    login ideal_sign plain_checkpw "k" 1000 (UserLogin.Build " Alice" "pw") alice_users
    = Ok (TokenResponse.Build
            (jwt_encode ideal_sign (login_payload "alice" "user" 1000) "k" "HS256")
            "Bearer" 3600)) by (vm_compute; reflexivity).
  split; [exact Hlogin|].
  refine (proj1 (logged_in_identity_is_served ideal_sign no_numeral plain_checkpw true
                   "k" 1000 2000 (UserLogin.Build " Alice" "pw") alice_users _
                   Hlogin _)).
  lia.
Defined.

Lemma list_items_accessible_newest_first_witness :
  verify_token ideal_sign no_numeral true "k" bob_token 1000 = Ok bob_claims
  ∧ unhashable (default (JStr "guest") (bob_claims !! "role")) = false
  ∧ ∃ resp : ItemsResponse.t,
      route_get_items ideal_sign no_numeral true "k" bob_token 1000 (init_db 0 [])
      = Ok resp
      ∧ ItemsResponse.role resp = JStr "user"
      ∧ ItemsResponse.total_items resp = 18.
Proof.
  assert (Hauth : verify_token ideal_sign no_numeral true "k" bob_token 1000
                  = Ok bob_claims) by (vm_compute; reflexivity).
  assert (Hrole : unhashable (default (JStr "guest") (bob_claims !! "role")) = false)
    by (vm_compute; reflexivity).
  assert (Hrender : renderable (default (JStr "guest") (bob_claims !! "role")) = true)
    by (vm_compute; reflexivity).
  split; [exact Hauth|]. split; [exact Hrole|].
  destruct (list_items_accessible_newest_first ideal_sign no_numeral true "k"
              bob_token 1000 bob_claims (init_db 0 []) Hauth Hrole Hrender)
    as (resp & Hrun & Hrole' & _ & _ & _ & _ & _ & _ & _ & Htotal).
  exists resp. split; [exact Hrun|]. split.
  - rewrite Hrole'. vm_compute. reflexivity.
  - rewrite Htotal. vm_compute. reflexivity.
Defined.

Lemma missing_subject_is_anonymous_witness :
  verify_token ideal_sign no_numeral true "k" nameless_token 1000 = Ok nameless_claims
  ∧ nameless_claims !! "sub" = None
  ∧ route_get_profile ideal_sign no_numeral true "k" nameless_token 1000
    = Ok (Profile.Build None "This is your profile").
Proof.
  assert (Hauth : verify_token ideal_sign no_numeral true "k" nameless_token 1000
                  = Ok nameless_claims) by (vm_compute; reflexivity).
  assert (Hsub : nameless_claims !! "sub" = None) by (vm_compute; reflexivity).
  split; [exact Hauth|]. split; [exact Hsub|].
  exact (proj2 (proj2 (proj2 (proj2 (proj2
           (missing_subject_is_anonymous ideal_sign no_numeral no_real_text true "k"
              nameless_token 1000 nameless_claims Hauth Hsub)))))).
Defined.

Lemma register_invalid_role_iff_witness :
  lower (strip "Carol ") ≠ ""
  ∧ fst (register_user plain_hashpw 7%nat (UserRegister.Build "Carol " "pw" "guest")
           alice_users)
    = Raise (HTTPException 400 "Invalid role. Available roles: user, admin, super_admin").
Proof.
  assert (Hname : lower (strip "Carol ") ≠ "") by (vm_compute; discriminate).
  split; [exact Hname|].
  apply (proj2 (proj2 (register_invalid_role_iff plain_hashpw 7%nat
                         (UserRegister.Build "Carol " "pw" "guest") alice_users
                         Hname ltac:(discriminate) ltac:(vm_compute; lia)))).
  reflexivity.
Defined.

(** C9 fails on the code: with a password of 73 characters, a login for
    the stored username alice reaches bcrypt, which raises, and the server
    answers 500; the same login for an unknown username is answered with
    401. *)
Lemma login_long_password_reveals_username :
  login ideal_sign plain_checkpw "k" 1000
    (UserLogin.Build "alice" long_password) alice_users
  = Except ValueError
  ∧ login ideal_sign plain_checkpw "k" 1000
      (UserLogin.Build "mallory" long_password) alice_users
    = Raise (HTTPException 401 "Invalid username or password").
Proof. split; vm_compute; reflexivity. Qed.

(** Claims of another kind than a login token carries: a null expiry makes
    the token library raise [TypeError], which is not a [JWTError]; a role
    that is a list makes the listing raise as soon as there is an item. *)
Example null_expiry_is_not_a_401 :
  verify_token ideal_sign no_numeral true "k"
    (JWT "HS256" {[ "exp" := JNull ]}
       (ideal_sign "HS256" "k" ("HS256", {[ "exp" := JNull ]}))) 1000
  = Except TypeError.
Proof. vm_compute. reflexivity. Qed.

Example list_role_raises_on_listing :
  get_items {[ "role" := JList [JStr "admin"] ]} (init_db 0 []) = Except TypeError
  ∧ ItemsResponse.items <$> (if get_items {[ "role" := JList [JStr "admin"] ]} []
                             is Ok resp then Some resp else None)
    = Some [].
Proof. split; vm_compute; reflexivity. Qed.

Example nan_role_cannot_be_written_back :
  route_get_items ideal_sign no_numeral true "k"
    (JWT "HS256" {[ "role" := JFloat S754_nan ]}
       (ideal_sign "HS256" "k" ("HS256", {[ "role" := JFloat S754_nan ]}))) 1000 []
  = Except ValueError.
Proof. vm_compute. reflexivity. Qed.

Example future_nbf_is_refused :
  verify_token ideal_sign no_numeral true "k"
    (JWT "HS256" {[ "nbf" := JInt 5000 ]}
       (ideal_sign "HS256" "k" ("HS256", {[ "nbf" := JInt 5000 ]}))) 1000
  = Raise (HTTPException 401 "Invalid token").
Proof. vm_compute. reflexivity. Qed.

Lemma listing_grows_with_rank_witness :
  dict_get ROLE_HIERARCHY (get_user_role bob_claims) 0 = Ok 1
  ∧ dict_get ROLE_HIERARCHY (get_user_role nameless_claims) 0 = Ok 2
  ∧ ∃ below above : ItemsResponse.t,
      get_items bob_claims (init_db 0 []) = Ok below
      ∧ get_items nameless_claims (init_db 0 []) = Ok above
      ∧ ItemsResponse.total_accessible below ≤ ItemsResponse.total_accessible above.
Proof.
  assert (H1 : dict_get ROLE_HIERARCHY (get_user_role bob_claims) 0 = Ok 1)
    by (vm_compute; reflexivity).
  assert (H2 : dict_get ROLE_HIERARCHY (get_user_role nameless_claims) 0 = Ok 2)
    by (vm_compute; reflexivity).
  split; [exact H1|]. split; [exact H2|].
  destruct (listing_grows_with_rank bob_claims nameless_claims (init_db 0 []) 1 2
              H1 H2 ltac:(lia))
    as (below & above & Hb & Ha & _ & Hle & _).
  exists below, above. exact (conj Hb (conj Ha Hle)).
Defined.

Lemma super_admin_sees_everything_witness :
  ({[ "role" := JStr "super_admin" ]} : gmap string jval) !! "role"
  = Some (JStr "super_admin")
  ∧ ∃ resp : ItemsResponse.t,
      get_items {[ "role" := JStr "super_admin" ]} (init_db 0 []) = Ok resp
      ∧ ItemsResponse.total_accessible resp = Z.of_nat (length (init_db 0 [])).
Proof.
  assert (H1 : ({[ "role" := JStr "super_admin" ]} : gmap string jval) !! "role"
               = Some (JStr "super_admin")) by (vm_compute; reflexivity).
  split; [exact H1|].
  destruct (super_admin_sees_everything {[ "role" := JStr "super_admin" ]}
              (init_db 0 []) H1) as (resp & Hrun & _ & Hcount & _).
  exists resp. exact (conj Hrun Hcount).
Defined.

Lemma guest_sees_only_unranked_levels_witness :
  get_user_role {[ "role" := JNull ]} = JNull
  ∧ ∃ resp : ItemsResponse.t,
      get_items {[ "role" := JNull ]} (init_db 0 []) = Ok resp
      ∧ (ItemRow 1 "Welcome Message"
           "Welcome to our platform! This is visible to everyone."
           (JStr "system") "public" 0
         ∈ ItemsResponse.items resp)
      ∧ (ItemRow 5 "Team Calendar" "Internal team calendar and schedules"
           (JStr "system") "user" 0
         ∉ ItemsResponse.items resp).
Proof.
  assert (Hrole : get_user_role {[ "role" := JNull ]} = JNull)
    by (vm_compute; reflexivity).
  assert (Hhash : unhashable (get_user_role {[ "role" := JNull ]}) = false)
    by (vm_compute; reflexivity).
  assert (Hguest : ∀ s : string,
            get_user_role {[ "role" := JNull ]} = JStr s
            → s ∉ ["user"; "admin"; "super_admin"]).
  { intros s. rewrite Hrole. discriminate. }
  split; [exact Hrole|].
  destruct (guest_sees_only_unranked_levels {[ "role" := JNull ]} (init_db 0 [])
              Hhash Hguest) as (resp & Hrun & Hitems).
  exists resp. split; [exact Hrun|]. split.
  - apply Hitems. split; apply (bool_decide_unpack _); vm_compute; exact I.
  - intros Hin. apply Hitems in Hin as [_ Hlevel].
    apply Hlevel. apply (bool_decide_unpack _). vm_compute. exact I.
Defined.

Lemma duplicate_username_rejected_witness :
  register_user plain_hashpw 7%nat (UserRegister.Build "Alice " "pw" "user") ∅
  = (Ok (Registered.Build "User 'alice' registered successfully"), alice_users)
  ∧ register_user plain_hashpw 9%nat (UserRegister.Build "ALICE" "other" "admin")
      alice_users
    = (Raise (HTTPException 400 "Username already exists"), alice_users).
Proof.
  assert (Hfirst :
    register_user plain_hashpw 7%nat (UserRegister.Build "Alice " "pw" "user") ∅
    = (Ok (Registered.Build "User 'alice' registered successfully"), alice_users))
    by (vm_compute; reflexivity).
  split; [exact Hfirst|].
  apply (duplicate_username_rejected plain_hashpw 7%nat 9%nat
           (UserRegister.Build "Alice " "pw" "user")
           (UserRegister.Build "ALICE" "other" "admin") ∅ alice_users _ Hfirst).
  - vm_compute. reflexivity.
  - discriminate.
  - discriminate.
  - vm_compute. lia.
  - apply (bool_decide_unpack _). vm_compute. exact I.
Defined.

Lemma registered_user_can_log_in_witness :
  register_user plain_hashpw 7%nat (UserRegister.Build "Alice " "pw" "user") ∅
  = (Ok (Registered.Build "User 'alice' registered successfully"), alice_users)
  ∧ login ideal_sign plain_checkpw "k" 1000 (UserLogin.Build "Alice " "pw") alice_users
    = Ok (TokenResponse.Build
            (jwt_encode ideal_sign (login_payload "alice" "user" 1000) "k" "HS256")
            "Bearer" 3600).
Proof.
  assert (Hfirst :
    register_user plain_hashpw 7%nat (UserRegister.Build "Alice " "pw" "user") ∅
    = (Ok (Registered.Build "User 'alice' registered successfully"), alice_users))
    by (vm_compute; reflexivity).
  split; [exact Hfirst|].
  refine (proj1 (registered_user_can_log_in ideal_sign plain_hashpw plain_checkpw "k"
                   7%nat (UserRegister.Build "Alice " "pw" "user") ∅ alice_users _
                   1000 Hfirst _)).
  vm_compute. reflexivity.
Defined.
